(** * A/B testing inference core: a shallow embedding and its properties

    The development follows the Python package [ab_testing]:
    - [hypothesis_tests.py]      two-proportion z-test, Welch t-test
    - [confidence_intervals.py]  intervals for the three metrics
    - [power_analysis.py]        effect sizes and required sample sizes
    - [business_insights.py]     metrics summary and rollout recommendation
    - [data_generator.py]        the synthetic dataset
    - [visualization.py]         the colour lookup of the conversion plot
    and the core analyses of [run_analysis] in [main.py].

    The package tries to import [proportions_ztest], [NormalIndPower] and
    [TTestIndPower] from statsmodels and defines its own versions when the
    import fails; the definitions embedded here are the ones written in the
    package.  scipy's distribution functions ([norm.cdf], [norm.ppf],
    [t.ppf], [ttest_ind]) and Python's number formatting are parameters. *)

From Stdlib Require Import Reals Lra Lia ZArith List String Bool Arith.
From Stdlib Require Import Permutation.
Import ListNotations.
Local Open Scope R_scope.

(** ** Floating-point values

    A numpy [float64] is modelled by its value: a finite number is an exact
    real (rounding error, overflow and the sign of zero are left out), and the
    three special values behave as IEEE 754 prescribes.  numpy scalar
    arithmetic never raises: a division by zero gives an infinity or nan. *)
Module Float.

Inductive float : Type :=
| Fin (r : R)
| PInf
| NInf
| NaN.

Definition Rltb (a b : R) : bool := if Rlt_dec a b then true else false.
Definition Rleb (a b : R) : bool := if Rle_dec a b then true else false.

Definition of_nat (n : nat) : float := Fin (INR n).

Definition is_nan (x : float) : bool :=
  match x with NaN => true | _ => false end.

Definition fneg (x : float) : float :=
  match x with
  | Fin r => Fin (- r)
  | PInf => NInf
  | NInf => PInf
  | NaN => NaN
  end.

Definition fabs (x : float) : float :=
  match x with
  | Fin r => Fin (Rabs r)
  | PInf | NInf => PInf
  | NaN => NaN
  end.

Definition fadd (x y : float) : float :=
  match x, y with
  | NaN, _ | _, NaN => NaN
  | Fin a, Fin b => Fin (a + b)
  | PInf, NInf | NInf, PInf => NaN
  | PInf, _ | _, PInf => PInf
  | NInf, _ | _, NInf => NInf
  end.

Definition fsub (x y : float) : float := fadd x (fneg y).

(** [inf * r] for a finite [r]: the sign of [r] decides, [inf * 0] is nan. *)
Definition inf_times (positive : bool) (r : R) : float :=
  if Rltb 0 r then (if positive then PInf else NInf)
  else if Rltb r 0 then (if positive then NInf else PInf)
  else NaN.

Definition fmul (x y : float) : float :=
  match x, y with
  | NaN, _ | _, NaN => NaN
  | Fin a, Fin b => Fin (a * b)
  | Fin a, PInf | PInf, Fin a => inf_times true a
  | Fin a, NInf | NInf, Fin a => inf_times false a
  | PInf, PInf | NInf, NInf => PInf
  | PInf, NInf | NInf, PInf => NInf
  end.

(** [a / 0] is an infinity with the sign of [a], and [0 / 0] is nan. *)
Definition fdiv (x y : float) : float :=
  match x, y with
  | NaN, _ | _, NaN => NaN
  | Fin a, Fin b => if Req_dec_T b 0 then inf_times true a else Fin (a / b)
  | Fin _, (PInf | NInf) => Fin 0
  | PInf, Fin b => if Rltb b 0 then NInf else PInf
  | NInf, Fin b => if Rltb b 0 then PInf else NInf
  | (PInf | NInf), (PInf | NInf) => NaN
  end.

(** [x ** 2] *)
Definition fsqr (x : float) : float := fmul x x.

(** [np.sqrt]: nan on a negative argument. *)
Definition fsqrt (x : float) : float :=
  match x with
  | Fin r => if Rltb r 0 then NaN else Fin (sqrt r)
  | PInf => PInf
  | NInf | NaN => NaN
  end.

(** [np.arcsin]: nan outside [-1, 1]. *)
Definition farcsin (x : float) : float :=
  match x with
  | Fin r => if Rleb (-1) r && Rleb r 1 then Fin (asin r) else NaN
  | _ => NaN
  end.

(** [np.ceil] *)
Definition fceil (x : float) : float :=
  match x with
  | Fin r => Fin (IZR (Zceil r))
  | _ => x
  end.

(** Comparisons: every comparison with nan is false. *)
Definition flt (x y : float) : bool :=
  match x, y with
  | NaN, _ | _, NaN => false
  | Fin a, Fin b => Rltb a b
  | _, NInf => false
  | NInf, _ => true
  | PInf, _ => false
  | _, PInf => true
  end.

Definition fle (x y : float) : bool :=
  match x, y with
  | NaN, _ | _, NaN => false
  | Fin a, Fin b => Rleb a b
  | NInf, _ => true
  | _, NInf => false
  | _, PInf => true
  | PInf, _ => false
  end.

Definition fgt (x y : float) : bool := flt y x.

(** Round half to even, the rounding of [round(x, ndigits)] on the decimal
    value. *)
Definition rint (r : R) : Z :=
  let f := Zfloor r in
  let d := r - IZR f in
  if Rltb d (1 / 2) then f
  else if Rltb (1 / 2) d then (f + 1)%Z
  else if Z.even f then f else (f + 1)%Z.

(** [round(x, ndigits)]: infinities and nan are returned unchanged. *)
Definition round (x : float) (ndigits : nat) : float :=
  match x with
  | Fin r => Fin (IZR (rint (r * 10 ^ ndigits)) / 10 ^ ndigits)
  | _ => x
  end.

End Float.
Import Float.

(** ** Exceptions

    The only exceptions the inference core can raise on a frame that has the
    required columns. *)
Inductive exn : Type :=
| ZeroDivisionError
| OverflowError
| ValueError.

Inductive result (A : Type) : Type :=
| OK (a : A)
| Raise (e : exn).
Arguments OK {A} a.
Arguments Raise {A} e.

Definition bind {A B : Type} (c : result A) (k : A -> result B) : result B :=
  match c with
  | OK a => k a
  | Raise e => Raise e
  end.

Notation "x <- c ;; k" := (bind c (fun x => k))
  (at level 61, c at next level, right associativity).

(** [int(x)] on a float: infinities raise OverflowError, nan raises
    ValueError, a finite value is truncated towards zero. *)
Definition to_int (x : float) : result Z :=
  match x with
  | Fin r => OK (if Rltb r 0 then Zceil r else Zfloor r)
  | PInf | NInf => Raise OverflowError
  | NaN => Raise ValueError
  end.

(** ** The dataset

    One row per user.  [converted] is the 0/1 flag of the data model; the
    engagement columns are floats, where nan stands for a missing value. *)
Module Row.
Record t : Type := mk {
  group : string;
  converted : bool;
  time_spent : float;
  clicks : float;
  session_count : float
}.
End Row.

Definition DataFrame : Type := list Row.t.

(** The continuous metrics the test suite is run on. *)
Inductive Metric : Type := TimeSpent | Clicks.

Definition metric_name (m : Metric) : string :=
  match m with
  | TimeSpent => "time_spent"
  | Clicks => "clicks"
  end.

(** [df[metric]] *)
Definition column (m : Metric) (df : DataFrame) : list float :=
  match m with
  | TimeSpent => map Row.time_spent df
  | Clicks => map Row.clicks df
  end.

(** [df[df["group"] == label]] *)
Definition group_is (label : string) (r : Row.t) : bool :=
  String.eqb (Row.group r) label.

Definition select (label : string) (df : DataFrame) : DataFrame :=
  filter (group_is label) df.

(** *** pandas reductions *)

(** [Series.dropna()] *)
Definition dropna (s : list float) : list float :=
  filter (fun x => negb (is_nan x)) s.

Definition fsum (s : list float) : float := fold_left fadd s (Fin 0).

(** [Series.sum()] on the 0/1 column: the number of ones. *)
Definition conversions (df : DataFrame) : nat :=
  List.length (filter Row.converted df).

(** [Series.mean()] on the 0/1 column; nan on an empty Series. *)
Definition conversion_mean (df : DataFrame) : float :=
  match df with
  | [] => NaN
  | _ => fdiv (of_nat (conversions df)) (of_nat (List.length df))
  end.

(** [Series.mean()]: missing values are skipped, nan when nothing is left. *)
Definition mean (s : list float) : float :=
  match dropna s with
  | [] => NaN
  | v => fdiv (fsum v) (of_nat (List.length v))
  end.

(** [Series.var(ddof=1)]: missing values are skipped, nan when fewer than
    two values are left. *)
Definition var (s : list float) : float :=
  let v := dropna s in
  let n := List.length v in
  if (n <=? 1)%nat then NaN
  else
    let avg := fdiv (fsum v) (of_nat n) in
    fdiv (fsum (map (fun x => fsqr (fsub avg x)) v)) (of_nat (n - 1)).

(** [Series.std()] (ddof=1) *)
Definition std (s : list float) : float := fsqrt (var s).

Declare Scope float_scope.
Delimit Scope float_scope with fl.
Bind Scope float_scope with float.
Infix "+" := fadd : float_scope.
Infix "-" := fsub : float_scope.
Infix "*" := fmul : float_scope.
Infix "/" := fdiv : float_scope.

Definition cat (a b : string) : string := String.append a b.
Infix "^^" := cat (at level 60, right associativity).

(** ** Records returned by the core *)

Module TestResult.
Record t : Type := mk {
  metric : string;
  test_type : string;
  statistic : float;
  p_value : float;
  significant : bool;
  alpha : float;
  interpretation : string
}.
End TestResult.

(** The dict of [run_all_tests], one entry per key. *)
Module Tests.
Record t : Type := mk {
  conversion_rate : TestResult.t;
  time_spent : TestResult.t;
  clicks : TestResult.t
}.
End Tests.

Module ConfidenceInterval.
Record t : Type := mk {
  metric : string;
  lower : float;
  upper : float;
  point_estimate : float;
  confidence_level : float
}.
End ConfidenceInterval.

Module Intervals.
Record t : Type := mk {
  conversion_rate : ConfidenceInterval.t;
  time_spent : ConfidenceInterval.t;
  clicks : ConfidenceInterval.t
}.
End Intervals.

(** The dict of [power_analysis_conversion] and [power_analysis_ttest];
    [effect_size] is the entry "effect_size_h", respectively "cohens_d". *)
Module PowerResult.
Record t : Type := mk {
  test : string;
  effect_size : float;
  required_sample_size_per_group : Z;
  alpha : float;
  power : float
}.
End PowerResult.

Module Power.
Record t : Type := mk {
  conversion_rate : PowerResult.t;
  time_spent : PowerResult.t;
  clicks : PowerResult.t;
  conversion_uplift_pct : float;
  actual_sample_size_per_group : nat
}.
End Power.

Module GroupSummary.
Record t : Type := mk {
  n_users : nat;
  conversion_rate : float;
  avg_time_spent : float;
  avg_clicks : float;
  avg_session_count : float;
  total_conversions : Z
}.
End GroupSummary.

Module Differences.
Record t : Type := mk {
  conversion_rate_diff : float;
  time_spent_diff : float;
  clicks_diff : float
}.
End Differences.

Module Summary.
Record t : Type := mk {
  control : GroupSummary.t;
  variant : GroupSummary.t;
  differences : Differences.t
}.
End Summary.

Inductive Recommendation : Type := ROLLOUT | DO_NOT_ROLLOUT | MONITOR.

Module Insights.
Record t : Type := mk {
  insights : list string;
  recommendation : Recommendation;
  rationale : string;
  significant_metrics : nat;
  total_metrics_tested : nat
}.
End Insights.

(** ** The two-proportion test as the specification words it

    On real numbers, from the four counts. *)
Module Spec.

Definition p_pool (conv_c n_c conv_v n_v : nat) : R :=
  (INR conv_c + INR conv_v) / (INR n_c + INR n_v).

Definition SE (conv_c n_c conv_v n_v : nat) : R :=
  let p := p_pool conv_c n_c conv_v n_v in
  sqrt (p * (1 - p) * (1 / INR n_c + 1 / INR n_v)).

(** [z = (p_variant - p_control) / SE], and 0 if SE is 0. *)
Definition z (conv_c n_c conv_v n_v : nat) : R :=
  let se := SE conv_c n_c conv_v n_v in
  if Req_dec_T se 0 then 0
  else (INR conv_v / INR n_v - INR conv_c / INR n_c) / se.

(** [2 (1 - Phi(|z|))] *)
Definition p_value (Phi : float -> float) (z : R) : float :=
  (Fin 2 * (Fin 1 - Phi (Fin (Rabs z))))%fl.

End Spec.

(** ** Closed instances of the parameters

    Used where a function is evaluated on sample data; the theorems hold for
    every instance.  The quantile and distribution functions are constant
    tables, [fmt] prints nothing. *)
Module Sample.

Definition norm_cdf (x : float) : float := Fin (9750002 / 10000000).
Definition norm_ppf (q : float) : float := Fin (196 / 100).
Definition t_ppf (q df : float) : float := Fin 2.
Definition ttest_ind (a b : list float) : float * float :=
  (Fin (-3), Fin (499996 / 10000000)).
Definition fmt (n : nat) (x : float) : string := EmptyString.

End Sample.

Section Core.

(** scipy: [stats.norm.cdf], [stats.norm.ppf], [stats.t.ppf(q, df=...)] and
    [stats.ttest_ind(a, b, equal_var=False)], which returns the statistic and
    the two-sided p-value. *)
Variable norm_cdf : float -> float.
Variable norm_ppf : float -> float.
Variable t_ppf : float -> float -> float.
Variable ttest_ind : list float -> list float -> float * float.

(** [fmt n x] is the text of [f"{x:.nf}"]. *)
Variable fmt : nat -> float -> string.

(** ** hypothesis_tests.py *)

(** The package's own [proportions_ztest]; [count] and [nobs] are the
    two-element arrays, [fst] is index 0 and [snd] index 1. *)
Definition proportions_ztest (count nobs : nat * nat) : float * float :=
  let p1 := (of_nat (fst count) / of_nat (fst nobs))%fl in
  let p2 := (of_nat (snd count) / of_nat (snd nobs))%fl in
  let p_pool :=
    (of_nat (fst count + snd count) / of_nat (fst nobs + snd nobs))%fl in
  let se :=
    fsqrt (p_pool * (Fin 1 - p_pool)
           * (Fin 1 / of_nat (fst nobs) + Fin 1 / of_nat (snd nobs)))%fl in
  let z := if fgt se (Fin 0) then ((p1 - p2) / se)%fl else Fin 0 in
  let p := (Fin 2 * (Fin 1 - norm_cdf (fabs z)))%fl in
  (z, p).

Definition verdict (significant : bool) : string :=
  if significant then "Statistically significant difference detected."
  else "No statistically significant difference detected.".

(** The local [uplift] of [two_proportion_ztest]. *)
Definition ztest_uplift (df : DataFrame) : float :=
  let control := select "control" df in
  let variant := select "variant" df in
  let n_c := List.length control in
  let n_v := List.length variant in
  let conv_c := conversions control in
  let conv_v := conversions variant in
  let rate_c := (of_nat conv_c / of_nat n_c)%fl in
  let rate_v := (of_nat conv_v / of_nat n_v)%fl in
  ((rate_v - rate_c) / rate_c * Fin 100)%fl.

Definition two_proportion_ztest (df : DataFrame) (alpha : float)
  : TestResult.t :=
  let control := select "control" df in
  let variant := select "variant" df in
  let n_c := List.length control in
  let n_v := List.length variant in
  let conv_c := conversions control in
  let conv_v := conversions variant in
  let count := (conv_v, conv_c) in
  let nobs := (n_v, n_c) in
  let (z_stat, p_val) := proportions_ztest count nobs in
  let significant := flt p_val alpha in
  let rate_c := (of_nat conv_c / of_nat n_c)%fl in
  let rate_v := (of_nat conv_v / of_nat n_v)%fl in
  let uplift := ztest_uplift df in
  let interpretation :=
    "Conversion rate: Control=" ^^ fmt 4 rate_c
    ^^ " (" ^^ fmt 2 (rate_c * Fin 100)%fl ^^ "%), Variant=" ^^ fmt 4 rate_v
    ^^ " (" ^^ fmt 2 (rate_v * Fin 100)%fl ^^ "%). Uplift=" ^^ fmt 2 uplift
    ^^ "%. " ^^ verdict significant in
  TestResult.mk "conversion_rate" "Two-Proportion Z-Test"
    (round z_stat 4) (round p_val 6) significant alpha interpretation.

Definition independent_ttest (df : DataFrame) (metric : Metric)
  (alpha : float) : TestResult.t :=
  let control_vals := dropna (column metric (select "control" df)) in
  let variant_vals := dropna (column metric (select "variant" df)) in
  let (t_stat, p_val) := ttest_ind control_vals variant_vals in
  let significant := flt p_val alpha in
  let mean_c := mean control_vals in
  let mean_v := mean variant_vals in
  let diff := (mean_v - mean_c)%fl in
  let interpretation :=
    metric_name metric ^^ ": Control mean=" ^^ fmt 4 mean_c
    ^^ ", Variant mean=" ^^ fmt 4 mean_v ^^ ". Difference=" ^^ fmt 4 diff
    ^^ ". " ^^ verdict significant in
  TestResult.mk (metric_name metric) "Independent T-Test (Welch)"
    (round t_stat 4) (round p_val 6) significant alpha interpretation.

Definition run_all_tests (df : DataFrame) (alpha : float) : Tests.t :=
  let conv_result := two_proportion_ztest df alpha in
  let time_result := independent_ttest df TimeSpent alpha in
  let clicks_result := independent_ttest df Clicks alpha in
  Tests.mk conv_result time_result clicks_result.

(** ** confidence_intervals.py *)

Definition of_int (z : Z) : float := Fin (IZR z).

(** [x / n], where [n] is the length of a Series and [x] a pandas reduction
    of that Series.  On an empty Series the reduction is the Python float
    nan, and dividing a Python float by the int 0 raises ZeroDivisionError;
    on a non-empty one [x] is a numpy scalar and the division is numpy's. *)
Definition div_len (x : float) (n : nat) : result float :=
  match n with
  | O => Raise ZeroDivisionError
  | S _ => OK (x / of_nat n)%fl
  end.

(** [1 - (1 - confidence) / 2] *)
Definition upper_tail (confidence : float) : float :=
  (Fin 1 - (Fin 1 - confidence) / Fin 2)%fl.

Definition ci_difference_proportions (df : DataFrame) (confidence : float)
  : result ConfidenceInterval.t :=
  let control := select "control" df in
  let variant := select "variant" df in
  let n_c := List.length control in
  let n_v := List.length variant in
  let p_c := conversion_mean control in
  let p_v := conversion_mean variant in
  let diff := (p_v - p_c)%fl in
  a <- div_len (p_c * (Fin 1 - p_c))%fl n_c ;;
  b <- div_len (p_v * (Fin 1 - p_v))%fl n_v ;;
  let se := fsqrt (a + b)%fl in
  let z := norm_ppf (upper_tail confidence) in
  let lower := (diff - z * se)%fl in
  let upper := (diff + z * se)%fl in
  OK (ConfidenceInterval.mk "conversion_rate_difference"
        (round lower 6) (round upper 6) (round diff 6) confidence).

(** Past the two divisions by the lengths, every operand is a numpy scalar:
    the division by [n - 1] in the degrees of freedom gives nan or an
    infinity when [n] is 1, it does not raise. *)
Definition ci_difference_means (df : DataFrame) (metric : Metric)
  (confidence : float) : result ConfidenceInterval.t :=
  let control_vals := dropna (column metric (select "control" df)) in
  let variant_vals := dropna (column metric (select "variant" df)) in
  let mean_c := mean control_vals in
  let mean_v := mean variant_vals in
  let diff := (mean_v - mean_c)%fl in
  let n_c := List.length control_vals in
  let n_v := List.length variant_vals in
  let var_c := var control_vals in
  let var_v := var variant_vals in
  a <- div_len var_c n_c ;;
  b <- div_len var_v n_v ;;
  let se := fsqrt (a + b)%fl in
  let df_welch :=
    (fsqr (a + b)
     / (fsqr a / of_int (Z.of_nat n_c - 1)
        + fsqr b / of_int (Z.of_nat n_v - 1)))%fl in
  let t_crit := t_ppf (upper_tail confidence) df_welch in
  let lower := (diff - t_crit * se)%fl in
  let upper := (diff + t_crit * se)%fl in
  OK (ConfidenceInterval.mk (metric_name metric ^^ "_difference")
        (round lower 4) (round upper 4) (round diff 4) confidence).

Definition compute_all_cis (df : DataFrame) (confidence : float)
  : result Intervals.t :=
  c <- ci_difference_proportions df confidence ;;
  t <- ci_difference_means df TimeSpent confidence ;;
  k <- ci_difference_means df Clicks confidence ;;
  OK (Intervals.mk c t k).

(** ** power_analysis.py *)

(** The package's own [NormalIndPower.solve_power]. *)
Definition NormalIndPower_solve_power (effect_size alpha power : float)
  : float :=
  let z_alpha := norm_ppf (Fin 1 - alpha / Fin 2)%fl in
  let z_beta := norm_ppf power in
  if fgt effect_size (Fin 0)
  then fsqr ((z_alpha + z_beta) / effect_size)%fl
  else PInf.

(** The package's own [TTestIndPower.solve_power]. *)
Definition TTestIndPower_solve_power (effect_size alpha power : float)
  : float :=
  let z_alpha := norm_ppf (Fin 1 - alpha / Fin 2)%fl in
  let z_beta := norm_ppf power in
  if fgt effect_size (Fin 0)
  then (Fin 2 * fsqr ((z_alpha + z_beta) / effect_size))%fl
  else PInf.

Definition cohens_d (mean1 mean2 std1 std2 : float) : float :=
  let pooled_std := fsqrt ((fsqr std1 + fsqr std2) / Fin 2)%fl in
  if fgt pooled_std (Fin 0)
  then (fabs (mean2 - mean1) / pooled_std)%fl
  else Fin 0.

Definition conversion_uplift (p_control p_variant : float) : float :=
  if fgt p_control (Fin 0)
  then ((p_variant - p_control) / p_control * Fin 100)%fl
  else Fin 0.

Definition effect_size_proportions (p1 p2 : float) : float :=
  fabs (Fin 2 * farcsin (fsqrt p2) - Fin 2 * farcsin (fsqrt p1))%fl.

(** [int(np.ceil(required_n))] *)
Definition ceil_int (required_n : float) : result Z :=
  to_int (fceil required_n).

Definition power_analysis_conversion (p_control p_variant alpha power : float)
  : result PowerResult.t :=
  let effect_h := effect_size_proportions p_control p_variant in
  let required_n := NormalIndPower_solve_power effect_h alpha power in
  n <- ceil_int required_n ;;
  OK (PowerResult.mk "Two-Proportion Z-Test" (round effect_h 4) n alpha power).

Definition power_analysis_ttest (mean1 mean2 std1 std2 : float)
  (metric : Metric) (alpha power : float) : result PowerResult.t :=
  let d := cohens_d mean1 mean2 std1 std2 in
  let required_n := TTestIndPower_solve_power d alpha power in
  n <- ceil_int required_n ;;
  OK (PowerResult.mk ("Independent T-Test (" ^^ metric_name metric ^^ ")")
        (round d 4) n alpha power).

(** The default [power = 0.80]. *)
Definition default_power : float := Fin (80 / 100).

Definition run_power_analysis (df : DataFrame) (alpha : float)
  : result Power.t :=
  let control := select "control" df in
  let variant := select "variant" df in
  let p_c := conversion_mean control in
  let p_v := conversion_mean variant in
  conv_power <- power_analysis_conversion p_c p_v alpha default_power ;;
  time_power <-
    power_analysis_ttest
      (mean (column TimeSpent control)) (mean (column TimeSpent variant))
      (std (column TimeSpent control)) (std (column TimeSpent variant))
      TimeSpent alpha default_power ;;
  clicks_power <-
    power_analysis_ttest
      (mean (column Clicks control)) (mean (column Clicks variant))
      (std (column Clicks control)) (std (column Clicks variant))
      Clicks alpha default_power ;;
  let uplift := conversion_uplift p_c p_v in
  OK (Power.mk conv_power time_power clicks_power (round uplift 2)
        (List.length control)).

(** ** business_insights.py *)

Definition group_summary (part : DataFrame) : GroupSummary.t :=
  GroupSummary.mk
    (List.length part)
    (round (conversion_mean part) 4)
    (round (mean (map Row.time_spent part)) 4)
    (round (mean (map Row.clicks part)) 4)
    (round (mean (map Row.session_count part)) 4)
    (Z.of_nat (conversions part)).

Definition compute_metrics_summary (df : DataFrame) : Summary.t :=
  let control := select "control" df in
  let variant := select "variant" df in
  Summary.mk
    (group_summary control)
    (group_summary variant)
    (Differences.mk
       (round (conversion_mean variant - conversion_mean control)%fl 4)
       (round (mean (map Row.time_spent variant)
               - mean (map Row.time_spent control))%fl 4)
       (round (mean (map Row.clicks variant)
               - mean (map Row.clicks control))%fl 4)).

(** [sum] over a list of booleans. *)
Definition sum_bools (l : list bool) : nat :=
  fold_left (fun acc b => (acc + Nat.b2n b)%nat) l O.

Definition generate_business_insights (metrics : Summary.t)
  (test_results : Tests.t) (power : Power.t) : Insights.t :=
  let conv_sig := TestResult.significant (Tests.conversion_rate test_results) in
  let time_sig := TestResult.significant (Tests.time_spent test_results) in
  let clicks_sig := TestResult.significant (Tests.clicks test_results) in
  let uplift := Power.conversion_uplift_pct power in
  let diff := Summary.differences metrics in
  let insights :=
    [ if conv_sig then
        "The variant group achieved a statistically significant lift of "
        ^^ fmt 2 uplift ^^ "% in conversion rate ("
        ^^ fmt 2 (GroupSummary.conversion_rate (Summary.control metrics)
                  * Fin 100)%fl
        ^^ "% → "
        ^^ fmt 2 (GroupSummary.conversion_rate (Summary.variant metrics)
                  * Fin 100)%fl
        ^^ "%). This directly impacts revenue."
      else
        "Conversion rate difference is not statistically significant. "
        ^^ "No reliable evidence the variant improves conversions." ]
    ++ (if time_sig then
          [ "Users in the variant spent on average "
            ^^ fmt 2 (Differences.time_spent_diff diff)
            ^^ " more minutes per session, indicating improved engagement." ]
        else [])
    ++ (if clicks_sig then
          [ "Variant users averaged "
            ^^ fmt 2 (Differences.clicks_diff diff)
            ^^ " more clicks, suggesting better interaction with the product." ]
        else []) in
  let significant_count := sum_bools [conv_sig; time_sig; clicks_sig] in
  let (recommendation, rationale) :=
    if (2 <=? significant_count)%nat && conv_sig && fgt uplift (Fin 0) then
      (ROLLOUT,
       "Multiple metrics show statistically significant improvement in the variant. "
       ^^ "A positive conversion uplift with increased engagement metrics strongly supports "
       ^^ "deploying the variant to all users.")
    else if conv_sig && fgt uplift (Fin 5) then
      (ROLLOUT,
       "Conversion rate uplift of " ^^ fmt 2 uplift
       ^^ "% is both statistically significant and "
       ^^ "practically meaningful. Recommend full rollout.")
    else if (significant_count =? 1)%nat && negb conv_sig then
      (DO_NOT_ROLLOUT,
       "No significant improvement in the primary metric (conversion rate). "
       ^^ "Engagement improvements alone do not justify a full rollout. "
       ^^ "Consider further experimentation.")
    else
      (MONITOR,
       "Results are mixed. Some metrics show improvement but the primary metric "
       ^^ "does not meet significance thresholds. Recommend extending the experiment.")
  in
  Insights.mk insights recommendation rationale significant_count 3.

End Core.

(** ** Notions used in the statements *)

(** The number of significant results among the three tests. *)
Definition significant_count (test_results : Tests.t) : nat :=
  List.length
    (filter TestResult.significant
       [Tests.conversion_rate test_results; Tests.time_spent test_results;
        Tests.clicks test_results]).

(** The dataset restricted to the two valid labels. *)
Definition restrict (df : DataFrame) : DataFrame :=
  filter (fun r => group_is "control" r || group_is "variant" r) df.

(** A float that is nan or a non-negative number (possibly +inf). *)
Definition nonneg_or_nan (x : float) : Prop :=
  is_nan x = true \/ fle (Fin 0) x = true.

(** *** Sample data

    No control user and every variant user converted; one row carries a
    label that is not a group. *)
Definition row (g : string) (c : bool) (t k n : R) : Row.t :=
  Row.mk g c (Fin t) (Fin k) (Fin n).

Definition df_sample : DataFrame :=
  [ row "control" false 1 1 1;
    row "variant" true 4 4 1;
    row "control" false 3 3 1;
    row "variant" true 6 6 1;
    row "holdout" true 9 9 9;
    row "variant" true 8 8 2 ].

(** A dataset without control rows. *)
Definition df_no_control : DataFrame :=
  [ row "variant" true 4 4 1; row "variant" false 6 6 1 ].

(** A dataset whose control partition is a single row. *)
Definition df_single_control : DataFrame :=
  [ row "control" false 5 5 1;
    row "variant" true 7 7 1;
    row "variant" false 9 9 1 ].

(** One more variant row, to be appended to [df_sample]. *)
Definition df_extra : DataFrame := [ row "variant" true 10 10 1 ].

(** Test results with given significance flags, and a power analysis with a
    given uplift. *)
Definition result_with (metric : string) (significant : bool) : TestResult.t :=
  TestResult.mk metric "" (Fin 0) (Fin 0) significant (Fin (5 / 100)) "".

Definition tests_with (conv_sig time_sig clicks_sig : bool) : Tests.t :=
  Tests.mk (result_with "conversion_rate" conv_sig)
    (result_with "time_spent" time_sig) (result_with "clicks" clicks_sig).

Definition power_with (uplift : R) : Power.t :=
  let r := PowerResult.mk "" (Fin 0) 0 (Fin (5 / 100)) (Fin (80 / 100)) in
  Power.mk r r r (Fin uplift) 2.

(** *** The two groups exchanged

    The dataset in which every control row is labelled variant and every
    variant row control; other labels stay. *)
Definition swap_label (g : string) : string :=
  if String.eqb g "control" then "variant"
  else if String.eqb g "variant" then "control"
  else g.

Definition swap_row (r : Row.t) : Row.t :=
  Row.mk (swap_label (Row.group r)) (Row.converted r) (Row.time_spent r)
    (Row.clicks r) (Row.session_count r).

Definition swap_groups (df : DataFrame) : DataFrame := map swap_row df.

Definition result_map {A B : Type} (f : A -> B) (r : result A) : result B :=
  match r with
  | OK a => OK (f a)
  | Raise e => Raise e
  end.

(** The interval of the opposite difference. *)
Definition reflect (ci : ConfidenceInterval.t) : ConfidenceInterval.t :=
  ConfidenceInterval.mk (ConfidenceInterval.metric ci)
    (fneg (ConfidenceInterval.upper ci)) (fneg (ConfidenceInterval.lower ci))
    (fneg (ConfidenceInterval.point_estimate ci))
    (ConfidenceInterval.confidence_level ci).

Definition reflect_all (cis : Intervals.t) : Intervals.t :=
  Intervals.mk (reflect (Intervals.conversion_rate cis))
    (reflect (Intervals.time_spent cis)) (reflect (Intervals.clicks cis)).

(** The three per-metric results of a power analysis. *)
Definition power_results (out : Power.t)
  : PowerResult.t * PowerResult.t * PowerResult.t :=
  (Power.conversion_rate out, Power.time_spent out, Power.clicks out).

(** Both partitions, and in both the non-missing values of each metric, are
    non-empty. *)
Definition all_present (df : DataFrame) : Prop :=
  select "control" df <> [] /\ select "variant" df <> []
  /\ forall metric,
       dropna (column metric (select "control" df)) <> []
       /\ dropna (column metric (select "variant" df)) <> [].

(** A dataset in which both groups have conversions. *)
Definition df_uplift : DataFrame :=
  [ row "control" true 2 2 1;
    row "variant" true 5 5 1;
    row "control" false 4 4 2;
    row "variant" true 7 7 1 ].

(** ** main.py

    The core analyses of [run_analysis], with [alpha=0.05] and
    [confidence=0.95] as written there.  The first exception ends the
    request (the handler turns it into an HTTP 500 response). *)
Module Analysis.
Record t : Type := mk {
  metrics_summary : Summary.t;
  hypothesis_tests : Tests.t;
  confidence_intervals : Intervals.t;
  power_analysis : Power.t;
  business_insights : Insights.t
}.
End Analysis.

Definition core_analyses (norm_cdf norm_ppf : float -> float)
  (t_ppf : float -> float -> float)
  (ttest_ind : list float -> list float -> float * float)
  (fmt : nat -> float -> string) (df : DataFrame) : result Analysis.t :=
  let metrics := compute_metrics_summary df in
  let tests := run_all_tests norm_cdf ttest_ind fmt df (Fin (5 / 100)) in
  cis <- compute_all_cis norm_ppf t_ppf df (Fin (95 / 100)) ;;
  power <- run_power_analysis norm_ppf df (Fin (5 / 100)) ;;
  let insights := generate_business_insights fmt metrics tests power in
  OK (Analysis.mk metrics tests cis power insights).

(** ** visualization.py

    The colours of the bars of [plot_conversion_rates]:
    [[COLORS[g] for g in groups.index]], where [groups] is
    [df.groupby("group")["converted"].mean()]. *)
Definition COLORS : list (string * string) :=
  [ ("control", "#4A90D9"); ("variant", "#E8533A") ]%string.

Inductive lookup (A : Type) : Type :=
| Found (a : A)
| KeyError (key : string).
Arguments Found {A} a.
Arguments KeyError {A} key.

(** [d[key]] on a dict *)
Fixpoint getitem (d : list (string * string)) (key : string) : lookup string :=
  match d with
  | [] => KeyError key
  | (k, v) :: d' => if String.eqb k key then Found v else getitem d' key
  end.

(** The index of a groupby on the label: the labels that occur, each once, in
    increasing order. *)
Fixpoint insert_label (g : string) (index : list string) : list string :=
  match index with
  | [] => [g]
  | x :: rest =>
      if String.eqb g x then index
      else if String.ltb g x then g :: index
      else x :: insert_label g rest
  end.

Definition group_index (df : DataFrame) : list string :=
  fold_right insert_label [] (map Row.group df).

Fixpoint colors_of (index : list string) : lookup (list string) :=
  match index with
  | [] => Found []
  | g :: rest =>
      match getitem COLORS g with
      | KeyError key => KeyError key
      | Found c =>
          match colors_of rest with
          | KeyError key => KeyError key
          | Found cs => Found (c :: cs)
          end
      end
  end.

Definition bar_colors (df : DataFrame) : lookup (list string) :=
  colors_of (group_index df).

(** ** data_generator.py

    A generated row carries a user id and a date besides the analysed
    columns.  The draws of numpy's generator are parameters, indexed by the
    position in the group: the binomial draws are booleans, the Poisson draws
    natural numbers, the gamma draws reals.  [sample] is
    [df.sample(frac=1, random_state=seed).reset_index(drop=True)]. *)
Module Observation.
Record t (Date : Type) : Type := mk {
  user_id : nat;
  fields : Row.t;
  date : Date
}.
Arguments mk {Date} user_id fields date.
Arguments user_id {Date} t.
Arguments fields {Date} t.
Arguments date {Date} t.
End Observation.

Section Generator.

Variable Date : Type.
Variables control_converted variant_converted : nat -> bool.
Variables control_time variant_time : nat -> R.
Variables control_clicks variant_clicks : nat -> nat.
Variables control_sessions variant_sessions : nat -> nat.
Variables control_dates variant_dates : nat -> Date.
Variable sample : list (Observation.t Date) -> list (Observation.t Date).

Definition generate_ab_test_data (n_users : nat) : list (Observation.t Date) :=
  let n_control := (n_users / 2)%nat in
  let n_variant := (n_users - n_control)%nat in
  let control_df :=
    map (fun i =>
           Observation.mk (1 + i)
             (Row.mk "control" (control_converted i)
                (round (Fin (control_time i)) 2)
                (of_nat (control_clicks i))
                (of_nat (control_sessions i + 1)))
             (control_dates i))
        (seq 0 n_control) in
  let variant_df :=
    map (fun i =>
           Observation.mk (n_control + 1 + i)
             (Row.mk "variant" (variant_converted i)
                (round (Fin (variant_time i)) 2)
                (of_nat (variant_clicks i))
                (of_nat (variant_sessions i + 1)))
             (variant_dates i))
        (seq 0 n_variant) in
  let df := sample (control_df ++ variant_df) in
  map (fun p => Observation.mk (fst p) (Observation.fields (snd p))
                  (Observation.date (snd p)))
      (combine (seq 1 (List.length df)) df).

(** The columns the analysis reads. *)
Definition frame (df : list (Observation.t Date)) : DataFrame :=
  map Observation.fields df.

End Generator.

Arguments generate_ab_test_data {Date}.
Arguments frame {Date}.

(** Five generated users, with fixed draws and the reversal as shuffle;
    dates are day numbers. *)
Definition generated_sample : list (Observation.t nat) :=
  generate_ab_test_data (fun _ => false) Nat.even
    (fun i => INR i + 1 / 4) (fun i => INR i + 1 / 2)
    (fun i => i) (fun i => 2 * i)%nat (fun _ => O) (fun i => i)
    (fun i => i) (fun i => 30 - i)%nat (@rev (Observation.t nat)) 5.

(** * Properties *)

Implicit Types norm_cdf norm_ppf : float -> float.
Implicit Type t_ppf : float -> float -> float.
Implicit Type ttest_ind : list float -> list float -> float * float.
Implicit Type fmt : nat -> float -> string.


(** ** Float arithmetic on finite values *)

Lemma Rltb_true (a b : R) : a < b -> Rltb a b = true.
Proof. intros H; unfold Rltb; destruct (Rlt_dec a b); [reflexivity | contradiction]. Qed.

Lemma Rltb_false (a b : R) : b <= a -> Rltb a b = false.
Proof. intros H; unfold Rltb; destruct (Rlt_dec a b); [lra | reflexivity]. Qed.

Lemma Rleb_true (a b : R) : a <= b -> Rleb a b = true.
Proof. intros H; unfold Rleb; destruct (Rle_dec a b); [reflexivity | contradiction]. Qed.

Lemma Rleb_false (a b : R) : b < a -> Rleb a b = false.
Proof. intros H; unfold Rleb; destruct (Rle_dec a b); [lra | reflexivity]. Qed.

Lemma Rltb_lt (a b : R) : Rltb a b = true <-> a < b.
Proof.
  unfold Rltb; destruct (Rlt_dec a b); split; intros; try discriminate; tauto.
Qed.

Lemma Rleb_le (a b : R) : Rleb a b = true <-> a <= b.
Proof.
  unfold Rleb; destruct (Rle_dec a b); split; intros; try discriminate; tauto.
Qed.

Lemma fdiv_fin (a b : R) : b <> 0 -> (Fin a / Fin b)%fl = Fin (a / b).
Proof.
  intros Hb; unfold fdiv; destruct (Req_dec_T b 0); [contradiction | reflexivity].
Qed.

Lemma fsqrt_fin (r : R) : 0 <= r -> fsqrt (Fin r) = Fin (sqrt r).
Proof. intros H; unfold fsqrt; now rewrite Rltb_false. Qed.

Lemma INR_length_pos {A : Type} (l : list A) : l <> [] -> 0 < INR (List.length l).
Proof.
  destruct l as [|a l]; [congruence | intros _].
  apply lt_0_INR; simpl; lia.
Qed.

Lemma conversions_le (df : DataFrame) :
  INR (conversions df) <= INR (List.length df).
Proof. apply le_INR, filter_length_le. Qed.

(** ** The pooled z statistic *)

Lemma pooled_radicand_nonneg (a n b m : nat) :
  0 < INR n -> 0 < INR m -> INR a <= INR n -> INR b <= INR m ->
  let p := (INR a + INR b) / (INR n + INR m) in
  0 <= p * (1 - p) * (1 / INR n + 1 / INR m).
Proof.
  intros Hn Hm Han Hbm p.
  assert (Ha : 0 <= INR a) by apply pos_INR.
  assert (Hb : 0 <= INR b) by apply pos_INR.
  assert (Hp0 : 0 <= p).
  { unfold p; apply Rmult_le_pos; [lra|]. left; apply Rinv_0_lt_compat; lra. }
  assert (Hp1 : p <= 1).
  { unfold p; apply Rmult_le_reg_r with (INR n + INR m); [lra|].
    unfold Rdiv; rewrite Rmult_assoc, Rinv_l by lra; lra. }
  assert (H1 : 0 < 1 / INR n) by (apply Rdiv_lt_0_compat; lra).
  assert (H2 : 0 < 1 / INR m) by (apply Rdiv_lt_0_compat; lra).
  apply Rmult_le_pos; [apply Rmult_le_pos|]; lra.
Qed.

Lemma proportions_ztest_spec norm_cdf (conv_c n_c conv_v n_v : nat) :
  0 < INR n_c -> 0 < INR n_v ->
  INR conv_c <= INR n_c -> INR conv_v <= INR n_v ->
  proportions_ztest norm_cdf (conv_v, conv_c) (n_v, n_c)
  = (Fin (Spec.z conv_c n_c conv_v n_v),
     Spec.p_value norm_cdf (Spec.z conv_c n_c conv_v n_v)).
Proof.
  intros Hc Hv Hcc Hvv.
  pose proof (pooled_radicand_nonneg conv_c n_c conv_v n_v Hc Hv Hcc Hvv) as Hrad.
  cbv zeta in Hrad.
  unfold proportions_ztest, Spec.p_value, Spec.z, Spec.SE, Spec.p_pool, of_nat.
  cbn [fst snd].
  rewrite !plus_INR.
  rewrite !fdiv_fin by lra.
  cbn [fsub fadd fmul fneg].
  replace ((INR conv_v + INR conv_c) / (INR n_v + INR n_c))
    with ((INR conv_c + INR conv_v) / (INR n_c + INR n_v))
    by (f_equal; lra).
  set (p := (INR conv_c + INR conv_v) / (INR n_c + INR n_v)) in *.
  replace (p * (1 + - p) * (1 / INR n_v + 1 / INR n_c))
    with (p * (1 - p) * (1 / INR n_c + 1 / INR n_v)) by lra.
  set (X := p * (1 - p) * (1 / INR n_c + 1 / INR n_v)) in *.
  rewrite fsqrt_fin by exact Hrad.
  unfold fgt; cbn [flt].
  pose proof (sqrt_pos X) as Hs.
  destruct (Req_dec_T (sqrt X) 0) as [E | NE].
  - rewrite Rltb_false by lra. reflexivity.
  - rewrite Rltb_true by lra.
    rewrite fdiv_fin by exact NE.
    replace (INR conv_v / INR n_v + - (INR conv_c / INR n_c))
      with (INR conv_v / INR n_v - INR conv_c / INR n_c) by lra.
    reflexivity.
Qed.

(** C1: on a dataset whose control and variant partitions are non-empty, the
    two-proportion test computes the pooled proportion, the standard error,
    z = (p_variant - p_control) / SE (0 when SE is 0) and the two-tailed
    p-value 2 (1 - Phi(|z|)) of the specification; the reported statistic and
    p-value are these, rounded, and the result is significant exactly when
    the p-value is below alpha. *)
Theorem two_proportion_ztest_formulas norm_cdf fmt (df : DataFrame)
  (alpha : float) :
  select "control" df <> [] ->
  select "variant" df <> [] ->
  let control := select "control" df in
  let variant := select "variant" df in
  let z := Spec.z (conversions control) (List.length control)
                  (conversions variant) (List.length variant) in
  let p := Spec.p_value norm_cdf z in
  let r := two_proportion_ztest norm_cdf fmt df alpha in
  proportions_ztest norm_cdf (conversions variant, conversions control)
                    (List.length variant, List.length control) = (Fin z, p)
  /\ TestResult.statistic r = round (Fin z) 4
  /\ TestResult.p_value r = round p 6
  /\ TestResult.significant r = flt p alpha
  /\ TestResult.alpha r = alpha.
Proof.
  intros Hc Hv control variant z p r.
  assert (E : proportions_ztest norm_cdf
                (conversions variant, conversions control)
                (List.length variant, List.length control) = (Fin z, p)).
  { apply proportions_ztest_spec.
    - apply INR_length_pos, Hc.
    - apply INR_length_pos, Hv.
    - apply conversions_le.
    - apply conversions_le. }
  split; [exact E|].
  unfold r, two_proportion_ztest.
  fold control variant. rewrite E. cbn. repeat split.
Qed.

(** ** The recommendation rule *)

Lemma sum_bools_count (test_results : Tests.t) :
  sum_bools
    [TestResult.significant (Tests.conversion_rate test_results);
     TestResult.significant (Tests.time_spent test_results);
     TestResult.significant (Tests.clicks test_results)]
  = significant_count test_results.
Proof.
  unfold significant_count, sum_bools; cbn [filter fold_left].
  destruct (TestResult.significant (Tests.conversion_rate test_results)),
    (TestResult.significant (Tests.time_spent test_results)),
    (TestResult.significant (Tests.clicks test_results)); reflexivity.
Qed.

(** C3: the recommendation label follows the four rules in order, the first
    match winning: (1) at least two significant metrics, conversion
    significant and uplift > 0 give ROLLOUT; (2) otherwise conversion
    significant and uplift > 5 give ROLLOUT; (3) otherwise exactly one
    significant metric and conversion not significant give DO NOT ROLLOUT;
    (4) otherwise MONITOR.  The output carries the count of significant
    metrics and total_metrics_tested = 3. *)
Theorem recommendation_rule fmt (metrics : Summary.t)
  (test_results : Tests.t) (power : Power.t) :
  let out := generate_business_insights fmt metrics test_results power in
  let n := significant_count test_results in
  let conv_sig :=
    TestResult.significant (Tests.conversion_rate test_results) in
  let uplift := Power.conversion_uplift_pct power in
  let rule1 := (2 <= n)%nat /\ conv_sig = true /\ fgt uplift (Fin 0) = true in
  let rule2 := conv_sig = true /\ fgt uplift (Fin 5) = true in
  let rule3 := n = 1%nat /\ conv_sig = false in
  (rule1 -> Insights.recommendation out = ROLLOUT)
  /\ (~ rule1 -> rule2 -> Insights.recommendation out = ROLLOUT)
  /\ (~ rule1 -> ~ rule2 -> rule3 ->
      Insights.recommendation out = DO_NOT_ROLLOUT)
  /\ (~ rule1 -> ~ rule2 -> ~ rule3 -> Insights.recommendation out = MONITOR)
  /\ Insights.significant_metrics out = n
  /\ Insights.total_metrics_tested out = 3%nat.
Proof.
  intros out n conv_sig uplift rule1 rule2 rule3.
  unfold out, generate_business_insights.
  rewrite sum_bools_count. fold n conv_sig uplift.
  assert (D1 : {rule1} + {~ rule1}).
  { unfold rule1. destruct (le_dec 2 n); [|right; tauto].
    destruct conv_sig; [|right; intuition discriminate].
    destruct (fgt uplift (Fin 0)); [left; auto | right; intuition discriminate]. }
  assert (D2 : {rule2} + {~ rule2}).
  { unfold rule2. destruct conv_sig; [|right; intuition discriminate].
    destruct (fgt uplift (Fin 5)); [left; auto | right; intuition discriminate]. }
  assert (D3 : {rule3} + {~ rule3}).
  { unfold rule3. destruct (Nat.eq_dec n 1); [|right; tauto].
    destruct conv_sig; [right; intuition discriminate | left; auto]. }
  assert (B1 : (2 <=? n)%nat && conv_sig && fgt uplift (Fin 0) = true <-> rule1).
  { unfold rule1. rewrite !andb_true_iff, Nat.leb_le. tauto. }
  assert (B2 : conv_sig && fgt uplift (Fin 5) = true <-> rule2).
  { unfold rule2. rewrite andb_true_iff. tauto. }
  assert (B3 : (n =? 1)%nat && negb conv_sig = true <-> rule3).
  { unfold rule3. rewrite andb_true_iff, Nat.eqb_eq, negb_true_iff. tauto. }
  destruct D1 as [R1 | N1].
  { rewrite (proj2 B1 R1). cbn. repeat split; tauto. }
  rewrite (not_true_is_false _ (fun E => N1 (proj1 B1 E))).
  destruct D2 as [R2 | N2].
  { rewrite (proj2 B2 R2). cbn. repeat split; tauto. }
  rewrite (not_true_is_false _ (fun E => N2 (proj1 B2 E))).
  destruct D3 as [R3 | N3].
  { rewrite (proj2 B3 R3). cbn. repeat split; tauto. }
  rewrite (not_true_is_false _ (fun E => N3 (proj1 B3 E))).
  cbn. repeat split; tauto.
Qed.

(** ** Rows with an unknown group label *)

Lemma select_restrict (label : string) (df : DataFrame) :
  label = "control"%string \/ label = "variant"%string ->
  select label (restrict df) = select label df.
Proof.
  intros Hl. unfold select, restrict.
  induction df as [|r df IH]; [reflexivity|].
  cbn [filter].
  destruct (group_is "control" r || group_is "variant" r) eqn:E.
  - cbn [filter]. now rewrite IH.
  - rewrite IH.
    apply orb_false_elim in E. destruct E as [Ec Ev].
    destruct Hl as [-> | ->]; [now rewrite Ec | now rewrite Ev].
Qed.

Lemma select_restrict_control (df : DataFrame) :
  select "control" (restrict df) = select "control" df.
Proof. apply select_restrict; now left. Qed.

Lemma select_restrict_variant (df : DataFrame) :
  select "variant" (restrict df) = select "variant" df.
Proof. apply select_restrict; now right. Qed.

(** C8: rows whose group label is neither "control" nor "variant" take part
    in no computation: the metrics summary, the hypothesis tests, the
    confidence intervals and the power analysis give on a dataset the result
    (a value or an exception) they give on the dataset restricted to the two
    valid labels. *)
Theorem unknown_labels_ignored norm_cdf norm_ppf t_ppf ttest_ind fmt
  (df : DataFrame) (alpha confidence : float) :
  compute_metrics_summary df = compute_metrics_summary (restrict df)
  /\ run_all_tests norm_cdf ttest_ind fmt df alpha
     = run_all_tests norm_cdf ttest_ind fmt (restrict df) alpha
  /\ compute_all_cis norm_ppf t_ppf df confidence
     = compute_all_cis norm_ppf t_ppf (restrict df) confidence
  /\ run_power_analysis norm_ppf df alpha
     = run_power_analysis norm_ppf (restrict df) alpha.
Proof.
  unfold compute_metrics_summary, run_all_tests, two_proportion_ztest,
    ztest_uplift, independent_ttest, compute_all_cis,
    ci_difference_proportions, ci_difference_means, run_power_analysis.
  rewrite !select_restrict_control, !select_restrict_variant.
  repeat split.
Qed.

(** ** The observed sample size *)

Lemma run_power_analysis_actual norm_ppf (df : DataFrame) (alpha : float)
  (out : Power.t) :
  run_power_analysis norm_ppf df alpha = OK out ->
  Power.actual_sample_size_per_group out = List.length (select "control" df).
Proof.
  unfold run_power_analysis, bind.
  destruct (power_analysis_conversion _ _ _ _ _); [|discriminate].
  destruct (power_analysis_ttest _ _ _ _ _ _ _ _); [|discriminate].
  destruct (power_analysis_ttest _ _ _ _ _ _ _ _); [|discriminate].
  intros H; injection H as <-. reflexivity.
Qed.

Lemma select_app (label : string) (df1 df2 : DataFrame) :
  select label (df1 ++ df2) = select label df1 ++ select label df2.
Proof. apply filter_app. Qed.

Lemma select_other (label : string) (rows : DataFrame) :
  Forall (fun r => group_is label r = false) rows -> select label rows = [].
Proof.
  induction 1 as [|r rows Hr _ IH]; [reflexivity|].
  unfold select in *; cbn [filter]. now rewrite Hr.
Qed.

(** C9: the field actual_sample_size_per_group of the power analysis is the
    number of rows of the control partition; rows outside the control
    partition (a variant partition of another size) do not change it. *)
Theorem actual_sample_size_is_control_size norm_ppf (df rows : DataFrame)
  (alpha : float) (out out' : Power.t) :
  run_power_analysis norm_ppf df alpha = OK out ->
  Forall (fun r => group_is "control" r = false) rows ->
  run_power_analysis norm_ppf (df ++ rows) alpha = OK out' ->
  Power.actual_sample_size_per_group out = List.length (select "control" df)
  /\ Power.actual_sample_size_per_group out'
     = Power.actual_sample_size_per_group out.
Proof.
  intros H Hrows H'.
  apply run_power_analysis_actual in H. apply run_power_analysis_actual in H'.
  rewrite H, H', select_app, (select_other _ _ Hrows), app_nil_r.
  split; reflexivity.
Qed.

(** ** nan propagation *)

Lemma fadd_nan_r (x : float) : (x + NaN)%fl = NaN.
Proof. now destruct x. Qed.

Lemma fsub_nan_r (x : float) : (x - NaN)%fl = NaN.
Proof. now destruct x. Qed.

Lemma fmul_nan_r (x : float) : (x * NaN)%fl = NaN.
Proof. now destruct x. Qed.

Lemma fdiv_nan_r (x : float) : (x / NaN)%fl = NaN.
Proof. now destruct x. Qed.

Lemma flt_nan_r (x : float) : flt x NaN = false.
Proof. now destruct x. Qed.

Lemma fle_nan_r (x : float) : fle x NaN = false.
Proof. now destruct x. Qed.

(** ** The metrics summary on an empty partition *)

Lemma group_summary_nil :
  group_summary [] = GroupSummary.mk 0 NaN NaN NaN NaN 0.
Proof. reflexivity. Qed.

(** C5, as the code has it: when the control or the variant partition is
    empty, the metrics summary is returned all the same; the empty partition
    is reported with n_users = 0, total_conversions = 0 and nan for its four
    means, and the three differences are nan. *)
Theorem metrics_summary_empty_partition (df : DataFrame) :
  select "control" df = [] \/ select "variant" df = [] ->
  let s := compute_metrics_summary df in
  Summary.differences s = Differences.mk NaN NaN NaN
  /\ (select "control" df = [] ->
      Summary.control s = GroupSummary.mk 0 NaN NaN NaN NaN 0)
  /\ (select "variant" df = [] ->
      Summary.variant s = GroupSummary.mk 0 NaN NaN NaN NaN 0).
Proof.
  intros H s. unfold s, compute_metrics_summary. cbn [Summary.differences
    Summary.control Summary.variant].
  split; [|split; intros ->; apply group_summary_nil].
  destruct H as [-> | ->]; cbn [conversion_mean map mean dropna filter].
  - now rewrite !fsub_nan_r.
  - reflexivity.
Qed.

(** ** Effect sizes *)

Lemma cohens_d_fin (m1 m2 s1 s2 : R) :
  let pooled := sqrt ((s1 * s1 + s2 * s2) / 2) in
  cohens_d (Fin m1) (Fin m2) (Fin s1) (Fin s2)
  = Fin (if Rltb 0 pooled then Rabs (m2 - m1) / pooled else 0).
Proof.
  intros pooled. unfold cohens_d, fsqr. cbn [fmul fadd].
  assert (H2 : (2 : R) <> 0) by lra.
  rewrite (fdiv_fin _ 2 H2).
  assert (Hrad : 0 <= (s1 * s1 + s2 * s2) / 2) by nra.
  rewrite fsqrt_fin by exact Hrad. fold pooled.
  unfold fgt; cbn [flt].
  destruct (Rltb 0 pooled) eqn:E; [|reflexivity].
  apply Rltb_lt in E.
  cbn [fsub fneg fadd fabs].
  rewrite fdiv_fin by lra.
  now replace (m2 + - m1) with (m2 - m1) by lra.
Qed.

Lemma asin_sqrt_bound (p : R) :
  0 <= p <= 1 -> 0 <= asin (sqrt p) <= PI / 2.
Proof.
  intros [H0 H1].
  assert (Hs0 : 0 <= sqrt p) by apply sqrt_pos.
  assert (Hs1 : sqrt p <= 1).
  { rewrite <- sqrt_1. now apply sqrt_le_1_alt. }
  pose proof (asin_bound (sqrt p)) as [Hlo Hhi].
  split; [|exact Hhi].
  destruct (Rle_dec 0 (asin (sqrt p))) as [|N]; [assumption|].
  exfalso.
  assert (Hneg : sin (asin (sqrt p)) < 0).
  { pose proof PI_RGT_0. apply sin_lt_0_var; lra. }
  rewrite sin_asin in Hneg by lra. lra.
Qed.

Lemma effect_size_proportions_fin (p1 p2 : R) :
  0 <= p1 <= 1 -> 0 <= p2 <= 1 ->
  effect_size_proportions (Fin p1) (Fin p2)
  = Fin (Rabs (2 * asin (sqrt p2) - 2 * asin (sqrt p1))).
Proof.
  intros H1 H2. unfold effect_size_proportions.
  rewrite !fsqrt_fin by tauto.
  assert (B : forall p, 0 <= p <= 1 -> farcsin (Fin (sqrt p)) = Fin (asin (sqrt p))).
  { intros p [Hp0 Hp1]. unfold farcsin.
    assert (Hs0 : 0 <= sqrt p) by apply sqrt_pos.
    assert (Hs1 : sqrt p <= 1) by (rewrite <- sqrt_1; now apply sqrt_le_1_alt).
    rewrite !Rleb_true by lra. reflexivity. }
  rewrite !B by assumption.
  cbn [fmul fsub fneg fadd fabs].
  now replace (2 * asin (sqrt p2) + - (2 * asin (sqrt p1)))
    with (2 * asin (sqrt p2) - 2 * asin (sqrt p1)) by lra.
Qed.

(** C7: for real means and non-negative standard deviations Cohen's d is
    |mean2 - mean1| / sqrt((std1^2 + std2^2) / 2), it is >= 0, and it is 0
    when the pooled standard deviation is 0; for proportions in [0, 1]
    Cohen's h is |2 arcsin(sqrt p2) - 2 arcsin(sqrt p1)| and lies in
    [0, pi]. *)
Theorem effect_sizes_bounds (m1 m2 s1 s2 p1 p2 : R) :
  0 <= s1 -> 0 <= s2 -> 0 <= p1 <= 1 -> 0 <= p2 <= 1 ->
  let pooled_std := sqrt ((s1 ^ 2 + s2 ^ 2) / 2) in
  (exists d : R,
      cohens_d (Fin m1) (Fin m2) (Fin s1) (Fin s2) = Fin d
      /\ 0 <= d
      /\ (pooled_std = 0 -> d = 0)
      /\ (pooled_std <> 0 -> d = Rabs (m2 - m1) / pooled_std))
  /\ (exists h : R,
         effect_size_proportions (Fin p1) (Fin p2) = Fin h
         /\ h = Rabs (2 * asin (sqrt p2) - 2 * asin (sqrt p1))
         /\ 0 <= h <= PI).
Proof.
  intros Hs1 Hs2 Hp1 Hp2 pooled_std.
  split.
  - rewrite cohens_d_fin.
    replace (s1 * s1 + s2 * s2) with (s1 ^ 2 + s2 ^ 2) by ring.
    fold pooled_std.
    pose proof (sqrt_pos ((s1 ^ 2 + s2 ^ 2) / 2)) as Hpos. fold pooled_std in Hpos.
    eexists; split; [reflexivity|].
    destruct (Rltb 0 pooled_std) eqn:E.
    + apply Rltb_lt in E. repeat split.
      * apply Rmult_le_pos; [apply Rabs_pos | left; now apply Rinv_0_lt_compat].
      * intros E0; lra.
    + assert (E0 : pooled_std = 0).
      { destruct (Rlt_dec 0 pooled_std) as [L|L];
          [apply Rltb_lt in L; congruence | lra]. }
      repeat split; [lra | intros N; contradiction].
  - rewrite effect_size_proportions_fin by assumption.
    eexists; split; [reflexivity|]. split; [reflexivity|].
    pose proof (asin_sqrt_bound p1 Hp1). pose proof (asin_sqrt_bound p2 Hp2).
    split; [apply Rabs_pos|].
    apply Rabs_le. lra.
Qed.

(** ** Required sample size at effect size zero *)

Lemma fabs_self_difference (y : float) :
  fgt (fabs (y - y)%fl) (Fin 0) = false.
Proof.
  destruct y as [r| | |]; try reflexivity.
  cbn [fsub fneg fadd fabs]. unfold fgt; cbn [flt].
  apply Rltb_false. replace (r + - r) with 0 by lra. rewrite Rabs_R0. lra.
Qed.

Lemma solve_power_zero_effect norm_ppf (alpha power : float) :
  NormalIndPower_solve_power norm_ppf (Fin 0) alpha power = PInf
  /\ TTestIndPower_solve_power norm_ppf (Fin 0) alpha power = PInf.
Proof.
  unfold NormalIndPower_solve_power, TTestIndPower_solve_power, fgt; cbn [flt].
  rewrite Rltb_false by lra. split; reflexivity.
Qed.

(** C4, at equal proportions: the effect size is not positive, the solver
    answers infinity, and [int(np.ceil(inf))] raises OverflowError instead of
    returning a result. *)
Theorem power_analysis_conversion_equal_rates norm_ppf
  (p alpha power : float) :
  power_analysis_conversion norm_ppf p p alpha power = Raise OverflowError.
Proof.
  unfold power_analysis_conversion, effect_size_proportions,
    NormalIndPower_solve_power.
  rewrite fabs_self_difference. reflexivity.
Qed.

(** ** Uplift at a control rate of zero *)

Lemma conversion_uplift_zero_control (p_variant : float) :
  conversion_uplift (Fin 0) p_variant = Fin 0.
Proof.
  unfold conversion_uplift, fgt; cbn [flt]. now rewrite Rltb_false by lra.
Qed.

(** ** Rounding *)

Lemma rint_floor (r : R) :
  rint r = Zfloor r \/ rint r = (Zfloor r + 1)%Z.
Proof.
  unfold rint.
  destruct (Rltb _ _); [now left|].
  destruct (Rltb _ _); [now right|].
  destruct (Z.even _); [now left | now right].
Qed.

Lemma rint_mono (a b : R) : a <= b -> (rint a <= rint b)%Z.
Proof.
  intros Hab.
  pose proof (Zfloor_le a b Hab) as Hf.
  destruct (Z.eq_dec (Zfloor a) (Zfloor b)) as [E | NE].
  - unfold rint. rewrite E.
    assert (Hd : a - IZR (Zfloor b) <= b - IZR (Zfloor b)) by lra.
    unfold Rltb.
    destruct (Rlt_dec (a - IZR (Zfloor b)) (1 / 2)).
    + destruct (Rlt_dec (b - IZR (Zfloor b)) (1 / 2)); [lia|].
      destruct (Rlt_dec (1 / 2) (b - IZR (Zfloor b))); [lia|].
      destruct (Z.even (Zfloor b)); lia.
    + destruct (Rlt_dec (1 / 2) (a - IZR (Zfloor b))).
      * destruct (Rlt_dec (b - IZR (Zfloor b)) (1 / 2)); [lra|].
        destruct (Rlt_dec (1 / 2) (b - IZR (Zfloor b))); [lia | lra].
      * destruct (Rlt_dec (b - IZR (Zfloor b)) (1 / 2)); [lra|].
        destruct (Rlt_dec (1 / 2) (b - IZR (Zfloor b)));
          destruct (Z.even (Zfloor b)); lia.
  - destruct (rint_floor a) as [-> | ->], (rint_floor b) as [-> | ->]; lia.
Qed.

Lemma rint_eq (r : R) (k : Z) :
  IZR k - 1 / 2 < r < IZR k + 1 / 2 -> rint r = k.
Proof.
  intros [Hlo Hhi]. unfold rint.
  destruct (Rle_dec (IZR k) r) as [Hk | Hk].
  - assert (E : Zfloor r = k) by (apply Zfloor_eq; lra).
    rewrite E. now rewrite Rltb_true by lra.
  - assert (E : Zfloor r = (k - 1)%Z).
    { apply Zfloor_eq. rewrite minus_IZR. lra. }
    rewrite E, minus_IZR.
    rewrite Rltb_false by lra. rewrite Rltb_true by lra. lia.
Qed.

Lemma pow10_pos (n : nat) : 0 < 10 ^ n.
Proof. apply pow_lt; lra. Qed.

Lemma round_mono (x y : float) (n : nat) :
  fle x y = true -> fle (round x n) (round y n) = true.
Proof.
  destruct x as [a| | |], y as [b| | |]; cbn [round fle]; try tauto.
  intros H. apply Rleb_le in H. apply Rleb_le.
  pose proof (pow10_pos n) as Hp.
  apply Rmult_le_compat_r; [left; now apply Rinv_0_lt_compat|].
  apply IZR_le, rint_mono. now apply Rmult_le_compat_r; [left|].
Qed.

Lemma is_nan_round (x : float) (n : nat) : is_nan (round x n) = is_nan x.
Proof. now destruct x. Qed.

(** ** Intervals around the point estimate *)

Lemma fsqrt_nonneg_or_nan (x : float) : nonneg_or_nan (fsqrt x).
Proof.
  destruct x as [r| | |]; cbn [fsqrt]; try (now left); try (now right).
  destruct (Rltb r 0); [now left | right].
  cbn [fle]. apply Rleb_le, sqrt_pos.
Qed.

Lemma fmul_nonneg_or_nan (x y : float) :
  nonneg_or_nan x -> nonneg_or_nan y -> nonneg_or_nan (x * y)%fl.
Proof.
  unfold nonneg_or_nan.
  destruct x as [a| | |], y as [b| | |]; cbn [fmul is_nan fle];
    intros [Hx | Hx] [Hy | Hy]; try discriminate; try (now left);
    try (now right).
  - apply Rleb_le in Hx, Hy. right. apply Rleb_le. now apply Rmult_le_pos.
  - apply Rleb_le in Hx. unfold inf_times, Rltb.
    destruct (Rlt_dec 0 a); [now right|].
    destruct (Rlt_dec a 0); [lra | now left].
  - apply Rleb_le in Hy. unfold inf_times, Rltb.
    destruct (Rlt_dec 0 b); [now right|].
    destruct (Rlt_dec b 0); [lra | now left].
Qed.

Lemma around_point (diff w : float) :
  nonneg_or_nan w ->
  is_nan (diff - w)%fl = false -> is_nan (diff + w)%fl = false ->
  fle (diff - w)%fl diff = true /\ fle diff (diff + w)%fl = true.
Proof.
  unfold nonneg_or_nan.
  destruct diff as [d| | |], w as [r| | |];
    cbn [fsub fneg fadd is_nan fle]; intros [Hw | Hw] H1 H2;
    try discriminate; try (split; reflexivity).
  apply Rleb_le in Hw. split; apply Rleb_le; lra.
Qed.

Lemma rounded_interval (diff crit x : float) (n : nat) :
  nonneg_or_nan crit ->
  is_nan (round (diff - crit * fsqrt x)%fl n) = false ->
  is_nan (round (diff + crit * fsqrt x)%fl n) = false ->
  fle (round (diff - crit * fsqrt x)%fl n) (round diff n) = true
  /\ fle (round diff n) (round (diff + crit * fsqrt x)%fl n) = true.
Proof.
  intros Hc H1 H2. rewrite is_nan_round in H1, H2.
  assert (Hw : nonneg_or_nan (crit * fsqrt x)%fl)
    by (apply fmul_nonneg_or_nan; [exact Hc | apply fsqrt_nonneg_or_nan]).
  destruct (around_point diff _ Hw H1 H2) as [Hlo Hhi].
  split; now apply round_mono.
Qed.

Lemma upper_tail_half (confidence : float) :
  fle (Fin 0) confidence = true ->
  fle (Fin (1 / 2)) (upper_tail confidence) = true.
Proof.
  unfold upper_tail.
  destruct confidence as [c| | |]; cbn [fle]; try discriminate.
  - intros H. apply Rleb_le in H.
    cbn [fsub fneg fadd]. rewrite fdiv_fin by lra.
    cbn [fneg fadd fle]. apply Rleb_le. lra.
  - intros _. cbn [fsub fneg fadd fdiv].
    rewrite Rltb_false by lra. reflexivity.
Qed.

(** C2, as the code has it: for a confidence level >= 0, and quantile
    functions that return nan or a non-negative value at q >= 1/2, every
    interval that [ci_difference_proportions] or [ci_difference_means]
    returns with bounds that are numbers (not nan) satisfies
    lower <= point_estimate <= upper, after the rounding of the three
    fields. *)
Theorem interval_contains_point_estimate norm_ppf t_ppf (df : DataFrame)
  (metric : Metric)
  (confidence : float) (ci : ConfidenceInterval.t) :
  (forall q, fle (Fin (1 / 2)) q = true -> nonneg_or_nan (norm_ppf q)) ->
  (forall q d, fle (Fin (1 / 2)) q = true -> nonneg_or_nan (t_ppf q d)) ->
  fle (Fin 0) confidence = true ->
  ci_difference_proportions norm_ppf df confidence = OK ci
  \/ ci_difference_means t_ppf df metric confidence = OK ci ->
  is_nan (ConfidenceInterval.lower ci) = false ->
  is_nan (ConfidenceInterval.upper ci) = false ->
  fle (ConfidenceInterval.lower ci) (ConfidenceInterval.point_estimate ci)
  = true
  /\ fle (ConfidenceInterval.point_estimate ci) (ConfidenceInterval.upper ci)
     = true.
Proof.
  intros Hnorm Ht Hconf Hci.
  pose proof (upper_tail_half confidence Hconf) as Hq.
  destruct Hci as [Hci | Hci].
  - unfold ci_difference_proportions, bind in Hci.
    destruct (div_len _ _) as [a|]; [|discriminate].
    destruct (div_len _ _) as [b|]; [|discriminate].
    injection Hci as <-. cbn [ConfidenceInterval.lower
      ConfidenceInterval.upper ConfidenceInterval.point_estimate].
    apply rounded_interval, Hnorm, Hq.
  - unfold ci_difference_means, bind in Hci.
    destruct (div_len _ _) as [a|]; [|discriminate].
    destruct (div_len _ _) as [b|]; [|discriminate].
    injection Hci as <-. cbn [ConfidenceInterval.lower
      ConfidenceInterval.upper ConfidenceInterval.point_estimate].
    apply rounded_interval, Ht, Hq.
Qed.

(** ** Significance and the stored p-value *)

(** C10: the significant flag of a test result compares the p-value as
    computed with alpha, while the stored p_value is that p-value rounded to
    6 decimals and the stored statistic is rounded to 4 decimals; so a
    p-value below alpha that rounds up to alpha or more is stored with
    significant = true and p_value >= alpha. *)
Theorem significance_from_unrounded_p norm_cdf ttest_ind fmt (df : DataFrame)
  (metric : Metric)
  (alpha : float) :
  let control := select "control" df in
  let variant := select "variant" df in
  let zp := proportions_ztest norm_cdf
              (conversions variant, conversions control)
              (List.length variant, List.length control) in
  let tp := ttest_ind (dropna (column metric control))
              (dropna (column metric variant)) in
  let rz := two_proportion_ztest norm_cdf fmt df alpha in
  let rt := independent_ttest ttest_ind fmt df metric alpha in
  (TestResult.significant rz = flt (snd zp) alpha
   /\ TestResult.p_value rz = round (snd zp) 6
   /\ TestResult.statistic rz = round (fst zp) 4)
  /\ (TestResult.significant rt = flt (snd tp) alpha
      /\ TestResult.p_value rt = round (snd tp) 6
      /\ TestResult.statistic rt = round (fst tp) 4)
  /\ (flt (snd zp) alpha = true -> fle alpha (round (snd zp) 6) = true ->
      TestResult.significant rz = true
      /\ fle alpha (TestResult.p_value rz) = true)
  /\ (flt (snd tp) alpha = true -> fle alpha (round (snd tp) 6) = true ->
      TestResult.significant rt = true
      /\ fle alpha (TestResult.p_value rt) = true).
Proof.
  intros control variant zp tp rz rt.
  assert (Hz : TestResult.significant rz = flt (snd zp) alpha
               /\ TestResult.p_value rz = round (snd zp) 6
               /\ TestResult.statistic rz = round (fst zp) 4).
  { unfold rz, two_proportion_ztest. fold control variant zp.
    destruct zp as [z p]. cbn. repeat split. }
  assert (Hs : TestResult.significant rt = flt (snd tp) alpha
               /\ TestResult.p_value rt = round (snd tp) 6
               /\ TestResult.statistic rt = round (fst tp) 4).
  { unfold rt, independent_ttest. fold control variant tp.
    destruct tp as [t p]. cbn. repeat split. }
  destruct Hz as (Hz1 & Hz2 & Hz3), Hs as (Hs1 & Hs2 & Hs3).
  split; [tauto|]. split; [tauto|]. split.
  - intros H1 H2. rewrite Hz1, Hz2. now split.
  - intros H1 H2. rewrite Hs1, Hs2. now split.
Qed.

(** ** Required sample size at a positive effect size *)

Lemma Zceil_IZR (k : Z) : Zceil (IZR k) = k.
Proof. unfold Zceil. rewrite ZfloorNZ. lia. Qed.

Lemma ceil_int_fin (r : R) : ceil_int (Fin r) = OK (Zceil r).
Proof.
  unfold ceil_int, fceil, to_int.
  rewrite Zceil_IZR, ZfloorZ. now destruct (Rltb _ _).
Qed.

Lemma fsqr_fin (r : R) : fsqr (Fin r) = Fin (r * r).
Proof. reflexivity. Qed.

Lemma power_analysis_conversion_ok norm_ppf
  (p_control p_variant alpha power : float)
  (h za zb : R) :
  effect_size_proportions p_control p_variant = Fin h -> 0 < h ->
  norm_ppf (Fin 1 - alpha / Fin 2)%fl = Fin za -> norm_ppf power = Fin zb ->
  let n := Zceil (((za + zb) / h) * ((za + zb) / h)) in
  power_analysis_conversion norm_ppf p_control p_variant alpha power
  = OK (PowerResult.mk "Two-Proportion Z-Test" (round (Fin h) 4) n alpha power)
  /\ (0 <= n)%Z.
Proof.
  intros Hh Hpos Ha Hb n.
  unfold power_analysis_conversion, NormalIndPower_solve_power.
  rewrite Hh, Ha, Hb. unfold fgt; cbn [flt]. rewrite Rltb_true by exact Hpos.
  cbn [fadd]. rewrite fdiv_fin by lra. rewrite fsqr_fin, ceil_int_fin.
  split; [reflexivity|].
  apply le_IZR. pose proof (Zceil_bound (((za + zb) / h) * ((za + zb) / h))) as Hb'.
  fold n in Hb'. pose proof (Rle_0_sqr ((za + zb) / h)) as Hsq.
  unfold Rsqr in Hsq. lra.
Qed.

Lemma power_analysis_ttest_ok norm_ppf (mean1 mean2 std1 std2 : float)
  (metric : Metric)
  (alpha power : float) (d za zb : R) :
  cohens_d mean1 mean2 std1 std2 = Fin d -> 0 < d ->
  norm_ppf (Fin 1 - alpha / Fin 2)%fl = Fin za -> norm_ppf power = Fin zb ->
  let n := Zceil (2 * (((za + zb) / d) * ((za + zb) / d))) in
  power_analysis_ttest norm_ppf mean1 mean2 std1 std2 metric alpha power
  = OK (PowerResult.mk ("Independent T-Test (" ^^ metric_name metric ^^ ")")
          (round (Fin d) 4) n alpha power)
  /\ (0 <= n)%Z.
Proof.
  intros Hd Hpos Ha Hb n.
  unfold power_analysis_ttest, TTestIndPower_solve_power.
  rewrite Hd, Ha, Hb. unfold fgt; cbn [flt]. rewrite Rltb_true by exact Hpos.
  cbn [fadd]. rewrite fdiv_fin by lra. rewrite fsqr_fin. cbn [fmul].
  rewrite ceil_int_fin.
  split; [reflexivity|].
  apply le_IZR.
  pose proof (Zceil_bound (2 * (((za + zb) / d) * ((za + zb) / d)))) as Hb'.
  fold n in Hb'. pose proof (Rle_0_sqr ((za + zb) / d)) as Hsq.
  unfold Rsqr in Hsq. lra.
Qed.

Lemma asin_inj (x y : R) :
  -1 <= x <= 1 -> -1 <= y <= 1 -> asin x = asin y -> x = y.
Proof.
  intros Hx Hy E. rewrite <- (sin_asin x Hx), <- (sin_asin y Hy). now rewrite E.
Qed.

Lemma effect_size_proportions_pos (p1 p2 : R) :
  0 <= p1 <= 1 -> 0 <= p2 <= 1 -> p1 <> p2 ->
  0 < Rabs (2 * asin (sqrt p2) - 2 * asin (sqrt p1)).
Proof.
  intros H1 H2 N. apply Rabs_pos_lt. intros E.
  assert (Ea : asin (sqrt p1) = asin (sqrt p2)) by lra.
  assert (B : forall p, 0 <= p <= 1 -> -1 <= sqrt p <= 1).
  { intros p [Hp0 Hp1]. pose proof (sqrt_pos p).
    assert (sqrt p <= 1) by (rewrite <- sqrt_1; now apply sqrt_le_1_alt). lra. }
  apply asin_inj in Ea; [|now apply B|now apply B].
  apply sqrt_inj in Ea; tauto.
Qed.

Lemma cohens_d_pos (m1 m2 v1 v2 : R) :
  m1 <> m2 -> 0 < v1 -> 0 <= v2 ->
  exists d : R,
    cohens_d (Fin m1) (Fin m2) (Fin (sqrt v1)) (Fin (sqrt v2)) = Fin d
    /\ 0 < d.
Proof.
  intros Hm Hv1 Hv2. rewrite cohens_d_fin.
  rewrite !sqrt_sqrt by lra.
  assert (Hp : 0 < sqrt ((v1 + v2) / 2)) by (apply sqrt_lt_R0; lra).
  rewrite Rltb_true by exact Hp.
  eexists; split; [reflexivity|].
  apply Rdiv_lt_0_compat; [|exact Hp].
  apply Rabs_pos_lt. lra.
Qed.

(** * The functions on the sample data *)

Ltac series_eval :=
  unfold mean, var, std, conversion_mean, conversions, fsum, fsqr, of_nat;
  cbn [column map row Row.time_spent Row.clicks Row.converted dropna filter
       is_nan negb List.length Nat.leb fold_left fadd INR Nat.sub];
  repeat (rewrite fdiv_fin by lra; cbn [fsub fneg fadd fmul fold_left]).

Lemma sample_control :
  select "control" df_sample
  = [row "control" false 1 1 1; row "control" false 3 3 1].
Proof. reflexivity. Qed.

Lemma sample_variant :
  select "variant" df_sample
  = [row "variant" true 4 4 1; row "variant" true 6 6 1;
     row "variant" true 8 8 2].
Proof. reflexivity. Qed.

Lemma sample_control_stats (m : Metric) :
  mean (column m (select "control" df_sample)) = Fin 2
  /\ var (column m (select "control" df_sample)) = Fin 2.
Proof.
  rewrite sample_control.
  destruct m; split; series_eval; f_equal; lra.
Qed.

Lemma sample_variant_stats (m : Metric) :
  mean (column m (select "variant" df_sample)) = Fin 6
  /\ var (column m (select "variant" df_sample)) = Fin 4.
Proof.
  rewrite sample_variant.
  destruct m; split; series_eval; f_equal; lra.
Qed.

Lemma sample_rates :
  conversion_mean (select "control" df_sample) = Fin 0
  /\ conversion_mean (select "variant" df_sample) = Fin 1.
Proof.
  rewrite sample_control, sample_variant.
  split; series_eval; f_equal; lra.
Qed.

(** ** C1 on the sample *)

(** Witness of C1: both partitions of [df_sample] are non-empty. *)
Lemma two_proportion_ztest_sample :
  let r := two_proportion_ztest Sample.norm_cdf Sample.fmt df_sample
             (Fin (5 / 100)) in
  let z := Spec.z 0 2 3 3 in
  TestResult.statistic r = round (Fin z) 4
  /\ TestResult.p_value r = round (Spec.p_value Sample.norm_cdf z) 6
  /\ TestResult.significant r
     = flt (Spec.p_value Sample.norm_cdf z) (Fin (5 / 100)).
Proof.
  assert (Hc : select "control" df_sample <> [])
    by (rewrite sample_control; discriminate).
  assert (Hv : select "variant" df_sample <> [])
    by (rewrite sample_variant; discriminate).
  destruct (two_proportion_ztest_formulas Sample.norm_cdf Sample.fmt df_sample
              (Fin (5 / 100)) Hc Hv) as (_ & E1 & E2 & E3 & _).
  repeat split; assumption.
Defined.

(** ** C3 on sample results *)

(** Witness of C3: one triple of results and one uplift for each rule. *)
Lemma recommendation_rule_sample :
  let summary := compute_metrics_summary df_sample in
  let label t p :=
    Insights.recommendation
      (generate_business_insights Sample.fmt summary t p) in
  label (tests_with true true false) (power_with 3) = ROLLOUT
  /\ label (tests_with true false false) (power_with 7) = ROLLOUT
  /\ label (tests_with false true false) (power_with 7) = DO_NOT_ROLLOUT
  /\ label (tests_with true false false) (power_with 3) = MONITOR.
Proof.
  intros summary label. unfold label.
  assert (L3 : fgt (Fin 3) (Fin 0) = true) by (apply Rltb_true; lra).
  assert (L5 : fgt (Fin 3) (Fin 5) = false) by (apply Rltb_false; lra).
  split; [|split; [|split]].
  - apply (proj1 (recommendation_rule Sample.fmt summary
                    (tests_with true true false) (power_with 3))).
    cbn. repeat split; [lia | exact L3].
  - apply (proj1 (proj2 (recommendation_rule Sample.fmt summary
                           (tests_with true false false) (power_with 7)))).
    + cbn. intros [H _]. lia.
    + cbn. split; [reflexivity | apply Rltb_true; lra].
  - apply (proj1 (proj2 (proj2 (recommendation_rule Sample.fmt summary
                                  (tests_with false true false)
                                  (power_with 7))))).
    + cbn. intros (_ & H & _). discriminate.
    + cbn. intros (H & _). discriminate.
    + cbn. split; reflexivity.
  - apply (proj1 (proj2 (proj2 (proj2 (recommendation_rule Sample.fmt summary
                                         (tests_with true false false)
                                         (power_with 3)))))).
    + cbn. intros [H _]. lia.
    + cbn. intros (_ & H). change (fgt (Fin 3) (Fin 5) = true) in H.
      congruence.
    + cbn. intros (_ & H). discriminate.
Defined.

(** ** C2 on the samples *)

Lemma single_control_vals (m : Metric) :
  column m (select "control" df_single_control) = [Fin 5]
  /\ column m (select "variant" df_single_control) = [Fin 7; Fin 9].
Proof. destruct m; split; reflexivity. Qed.

(** Counterexample to C2: with a single control row the variance of the
    control values is nan; [ci_difference_means] returns all the same, for
    every quantile function, and the bounds it returns are nan, so neither
    lower <= point_estimate nor point_estimate <= upper holds. *)
Lemma welch_interval_single_control_row :
  exists ci,
    (forall t_ppf,
        ci_difference_means t_ppf df_single_control TimeSpent (Fin (95 / 100))
        = OK ci)
    /\ is_nan (ConfidenceInterval.lower ci) = true
    /\ is_nan (ConfidenceInterval.upper ci) = true
    /\ fle (ConfidenceInterval.lower ci) (ConfidenceInterval.point_estimate ci)
       = false
    /\ fle (ConfidenceInterval.point_estimate ci) (ConfidenceInterval.upper ci)
       = false.
Proof.
  exists (ConfidenceInterval.mk "time_spent_difference" NaN NaN
            (round (Fin 3) 4) (Fin (95 / 100))).
  split; [|cbn; repeat split; reflexivity].
  intros t_ppf. unfold ci_difference_means.
  destruct (single_control_vals TimeSpent) as [-> ->].
  replace (mean (dropna [Fin 7; Fin 9])) with (Fin 8)
    by (series_eval; f_equal; lra).
  replace (mean (dropna [Fin 5])) with (Fin 5)
    by (series_eval; f_equal; lra).
  replace (var (dropna [Fin 5])) with NaN by reflexivity.
  cbn [dropna filter is_nan negb List.length div_len bind fdiv].
  cbn [fadd fsqrt]. rewrite !fmul_nan_r.
  cbn [fsub fneg fadd round metric_name].
  replace (8 + - (5)) with 3 by lra. reflexivity.
Qed.

Lemma sample_quantiles_nonneg :
  (forall q, fle (Fin (1 / 2)) q = true -> nonneg_or_nan (Sample.norm_ppf q))
  /\ (forall q d,
         fle (Fin (1 / 2)) q = true -> nonneg_or_nan (Sample.t_ppf q d)).
Proof.
  split; intros; right; cbn [Sample.norm_ppf Sample.t_ppf fle];
    apply Rleb_true; lra.
Qed.

Lemma sample_proportion_interval :
  exists lo hi pt : R,
    ci_difference_proportions Sample.norm_ppf df_sample (Fin (95 / 100))
    = OK (ConfidenceInterval.mk "conversion_rate_difference"
            (Fin lo) (Fin hi) (Fin pt) (Fin (95 / 100))).
Proof.
  unfold ci_difference_proportions.
  destruct sample_rates as [-> ->].
  rewrite sample_control, sample_variant.
  cbn [List.length div_len bind fsub fneg fadd fmul].
  unfold of_nat. cbn [INR]. rewrite !fdiv_fin by lra.
  cbn [fadd]. rewrite fsqrt_fin by lra.
  unfold Sample.norm_ppf. cbn [fmul fsub fneg fadd round].
  do 3 eexists. reflexivity.
Qed.

Lemma dropna_all (l : list float) :
  Forall (fun x => is_nan x = false) l -> dropna l = l.
Proof.
  induction 1 as [|x l Hx _ IH]; [reflexivity|].
  unfold dropna in *; cbn [filter]. now rewrite Hx, IH.
Qed.

Lemma column_length (m : Metric) (df : DataFrame) :
  List.length (column m df) = List.length df.
Proof. destruct m; apply length_map. Qed.

Lemma sample_welch_interval (m : Metric) :
  exists lo hi pt : R,
    ci_difference_means Sample.t_ppf df_sample m (Fin (95 / 100))
    = OK (ConfidenceInterval.mk (metric_name m ^^ "_difference")
            (Fin lo) (Fin hi) (Fin pt) (Fin (95 / 100))).
Proof.
  unfold ci_difference_means.
  rewrite !dropna_all by (rewrite ?sample_control, ?sample_variant;
                          destruct m; repeat constructor).
  destruct (sample_control_stats m) as [-> ->].
  destruct (sample_variant_stats m) as [-> ->].
  rewrite sample_control, sample_variant.
  rewrite !column_length. cbn [List.length div_len bind].
  unfold of_nat. cbn [INR]. rewrite !fdiv_fin by lra.
  cbn [fadd]. rewrite fsqrt_fin by lra.
  unfold Sample.t_ppf. cbn [fmul fsub fneg fadd round].
  do 3 eexists. reflexivity.
Qed.

(** Witness of C2: on [df_sample] the proportion interval and the Welch
    interval for time_spent are returned with finite bounds. *)
Lemma sample_intervals_ordered :
  exists cp ct,
    ci_difference_proportions Sample.norm_ppf df_sample (Fin (95 / 100))
    = OK cp
    /\ ci_difference_means Sample.t_ppf df_sample TimeSpent (Fin (95 / 100))
       = OK ct
    /\ fle (ConfidenceInterval.lower cp) (ConfidenceInterval.point_estimate cp)
       = true
    /\ fle (ConfidenceInterval.point_estimate cp) (ConfidenceInterval.upper cp)
       = true
    /\ fle (ConfidenceInterval.lower ct) (ConfidenceInterval.point_estimate ct)
       = true
    /\ fle (ConfidenceInterval.point_estimate ct) (ConfidenceInterval.upper ct)
       = true.
Proof.
  destruct sample_proportion_interval as (lo & hi & pt & Hp).
  destruct (sample_welch_interval TimeSpent) as (lo' & hi' & pt' & Ht).
  destruct sample_quantiles_nonneg as [Hn Hs].
  assert (Hc : fle (Fin 0) (Fin (95 / 100)) = true)
    by (cbn [fle]; apply Rleb_true; lra).
  do 2 eexists. split; [exact Hp|]. split; [exact Ht|].
  destruct (interval_contains_point_estimate Sample.norm_ppf Sample.t_ppf
              df_sample TimeSpent (Fin (95 / 100)) _ Hn Hs Hc (or_introl Hp)
              eq_refl eq_refl) as [P1 P2].
  destruct (interval_contains_point_estimate Sample.norm_ppf Sample.t_ppf
              df_sample TimeSpent (Fin (95 / 100)) _ Hn Hs Hc (or_intror Ht)
              eq_refl eq_refl) as [T1 T2].
  repeat split; assumption.
Defined.

(** ** C5 on a dataset without control rows *)

Lemma no_control_partition : select "control" df_no_control = [].
Proof. reflexivity. Qed.

(** Counterexample to C5: on a dataset without control rows the summary is
    returned, and the control entry holds nan aggregates. *)
Lemma metrics_summary_no_control :
  Summary.control (compute_metrics_summary df_no_control)
  = GroupSummary.mk 0 NaN NaN NaN NaN 0
  /\ is_nan (GroupSummary.conversion_rate
               (Summary.control (compute_metrics_summary df_no_control)))
     = true.
Proof. split; reflexivity. Qed.

(** Witness of C5. *)
Lemma metrics_summary_differences_no_control :
  Summary.differences (compute_metrics_summary df_no_control)
  = Differences.mk NaN NaN NaN.
Proof.
  exact (proj1 (metrics_summary_empty_partition df_no_control
                  (or_introl no_control_partition))).
Defined.

(** ** C6 on the sample *)

Lemma ztest_uplift_sample : ztest_uplift df_sample = PInf.
Proof.
  unfold ztest_uplift. rewrite sample_control, sample_variant.
  series_eval.
  unfold fdiv. destruct (Req_dec_T (0 / (1 + 1)) 0) as [_ | N]; [|lra].
  unfold inf_times. rewrite Rltb_true by lra. cbn [fmul].
  unfold inf_times. now rewrite Rltb_true by lra.
Qed.

(** C6, at a control conversion rate of 0: the uplift that
    [two_proportion_ztest] computes is +inf, and its interpretation reports
    that value, where [conversion_uplift] gives 0 on the same rates. *)
Theorem ztest_uplift_zero_control_rate :
  ztest_uplift df_sample = PInf
  /\ (forall norm_cdf fmt alpha,
        let r := two_proportion_ztest norm_cdf fmt df_sample alpha in
        TestResult.interpretation r
        = "Conversion rate: Control=" ^^ fmt 4%nat (Fin 0)
          ^^ " (" ^^ fmt 2%nat (Fin 0) ^^ "%), Variant=" ^^ fmt 4%nat (Fin 1)
          ^^ " (" ^^ fmt 2%nat (Fin 100) ^^ "%). Uplift=" ^^ fmt 2%nat PInf
          ^^ "%. " ^^ verdict (TestResult.significant r))
  /\ conversion_uplift (conversion_mean (select "control" df_sample))
       (conversion_mean (select "variant" df_sample)) = Fin 0.
Proof.
  split; [exact ztest_uplift_sample|]. split.
  - intros norm_cdf fmt alpha r. unfold r, two_proportion_ztest.
    rewrite ztest_uplift_sample, sample_control, sample_variant.
    destruct (proportions_ztest _ _ _) as [z p].
    cbn [TestResult.interpretation TestResult.significant].
    series_eval.
    replace (0 / (1 + 1)) with 0 by lra.
    replace (0 * 100) with 0 by lra.
    replace ((1 + 1 + 1) / (1 + 1 + 1)) with 1 by lra.
    replace (1 * 100) with 100 by lra.
    reflexivity.
  - destruct sample_rates as [-> _]. apply conversion_uplift_zero_control.
Qed.

(** ** C7 at sample values *)

(** Witness of C7. *)
Lemma effect_sizes_sample :
  (exists d : R,
      cohens_d (Fin 1) (Fin 3) (Fin 1) (Fin 1) = Fin d
      /\ 0 <= d
      /\ (sqrt ((1 ^ 2 + 1 ^ 2) / 2) = 0 -> d = 0)
      /\ (sqrt ((1 ^ 2 + 1 ^ 2) / 2) <> 0 ->
          d = Rabs (3 - 1) / sqrt ((1 ^ 2 + 1 ^ 2) / 2)))
  /\ (exists h : R,
         effect_size_proportions (Fin 0) (Fin 1) = Fin h
         /\ h = Rabs (2 * asin (sqrt 1) - 2 * asin (sqrt 0))
         /\ 0 <= h <= PI).
Proof.
  apply (effect_sizes_bounds 1 3 1 1 0 1); lra.
Defined.

(** ** C9 on the sample *)

Lemma extended_control :
  select "control" (df_sample ++ df_extra)
  = [row "control" false 1 1 1; row "control" false 3 3 1].
Proof. reflexivity. Qed.

Lemma extended_variant :
  select "variant" (df_sample ++ df_extra)
  = [row "variant" true 4 4 1; row "variant" true 6 6 1;
     row "variant" true 8 8 2; row "variant" true 10 10 1].
Proof. reflexivity. Qed.

Lemma power_runs_with (df : DataFrame) (alpha : float)
  (pc pv mc mv vc vv : R) :
  conversion_mean (select "control" df) = Fin pc ->
  conversion_mean (select "variant" df) = Fin pv ->
  (forall m, mean (column m (select "control" df)) = Fin mc
             /\ var (column m (select "control" df)) = Fin vc) ->
  (forall m, mean (column m (select "variant" df)) = Fin mv
             /\ var (column m (select "variant" df)) = Fin vv) ->
  0 <= pc <= 1 -> 0 <= pv <= 1 -> pc <> pv ->
  mc <> mv -> 0 < vc -> 0 <= vv ->
  exists out, run_power_analysis Sample.norm_ppf df alpha = OK out.
Proof.
  intros Epc Epv Hc Hv Hpc Hpv Hp Hm Hvc Hvv.
  unfold run_power_analysis. rewrite Epc, Epv.
  destruct (Hc TimeSpent) as [Emc Evc], (Hv TimeSpent) as [Emv Evv].
  destruct (Hc Clicks) as [Emc' Evc'], (Hv Clicks) as [Emv' Evv'].
  unfold std. rewrite Emc, Evc, Emv, Evv, Emc', Evc', Emv', Evv'.
  rewrite !fsqrt_fin by lra.
  destruct (power_analysis_conversion_ok Sample.norm_ppf (Fin pc) (Fin pv)
              alpha default_power _ (196 / 100) (196 / 100)
              (effect_size_proportions_fin pc pv Hpc Hpv)) as [E _];
    [now apply effect_size_proportions_pos | reflexivity | reflexivity |].
  rewrite E. cbn [bind].
  destruct (cohens_d_pos mc mv vc vv Hm Hvc Hvv) as (d & Ed & Hd).
  destruct (power_analysis_ttest_ok Sample.norm_ppf _ _ _ _ TimeSpent
              alpha default_power d (196 / 100) (196 / 100) Ed Hd)
    as [Et _]; [reflexivity | reflexivity |].
  destruct (power_analysis_ttest_ok Sample.norm_ppf _ _ _ _ Clicks
              alpha default_power d (196 / 100) (196 / 100) Ed Hd)
    as [Ek _]; [reflexivity | reflexivity |].
  rewrite Et, Ek. cbn [bind].
  eexists; reflexivity.
Qed.

Lemma sample_power_runs :
  exists out,
    run_power_analysis Sample.norm_ppf df_sample (Fin (5 / 100)) = OK out.
Proof.
  destruct sample_rates as [Ec Ev].
  apply (power_runs_with df_sample _ 0 1 2 6 2 4 Ec Ev
           sample_control_stats sample_variant_stats); lra.
Qed.

Lemma extended_power_runs :
  exists out,
    run_power_analysis Sample.norm_ppf (df_sample ++ df_extra) (Fin (5 / 100))
    = OK out.
Proof.
  apply (power_runs_with _ _ 0 1 2 7 2 (20 / 3)); try lra.
  - rewrite extended_control. series_eval; f_equal; lra.
  - rewrite extended_variant. series_eval; f_equal; lra.
  - intros m. rewrite extended_control.
    destruct m; split; series_eval; f_equal; lra.
  - intros m. rewrite extended_variant.
    destruct m; split; series_eval; f_equal; lra.
Qed.

(** Witness of C9: two control rows, three and then four variant rows. *)
Lemma actual_sample_size_sample :
  exists out out',
    run_power_analysis Sample.norm_ppf df_sample (Fin (5 / 100)) = OK out
    /\ run_power_analysis Sample.norm_ppf (df_sample ++ df_extra)
         (Fin (5 / 100)) = OK out'
    /\ Power.actual_sample_size_per_group out = 2%nat
    /\ Power.actual_sample_size_per_group out' = 2%nat.
Proof.
  destruct sample_power_runs as [out H].
  destruct extended_power_runs as [out' H'].
  exists out, out'.
  assert (Hrows : Forall (fun r => group_is "control" r = false) df_extra)
    by (repeat constructor).
  destruct (actual_sample_size_is_control_size Sample.norm_ppf df_sample
              df_extra (Fin (5 / 100)) out out' H Hrows H') as [E1 E2].
  split; [exact H|]. split; [exact H'|].
  split; [rewrite E1 | rewrite E2, E1]; reflexivity.
Defined.

(** ** C10 on the sample *)

Lemma sample_p_value :
  snd (proportions_ztest Sample.norm_cdf
         (conversions (select "variant" df_sample),
          conversions (select "control" df_sample))
         (List.length (select "variant" df_sample),
          List.length (select "control" df_sample)))
  = Fin (499996 / 10000000).
Proof.
  rewrite sample_control, sample_variant.
  cbn [conversions filter row Row.converted List.length].
  rewrite proportions_ztest_spec; cbn [INR]; try lra.
  cbn [snd]. unfold Spec.p_value, Sample.norm_cdf. cbn [fsub fneg fadd fmul].
  f_equal. lra.
Qed.

Lemma round_sample_p_value :
  round (Fin (499996 / 10000000)) 6 = Fin (5 / 100).
Proof.
  cbn [round]. rewrite (rint_eq _ 50000); [f_equal; cbn [pow]; lra|].
  cbn [pow]. lra.
Qed.

(** Witness of C10: the p-value 0.0499996 is below alpha = 0.05 and is
    stored as 0.05. *)
Lemma significant_with_stored_p_at_alpha :
  let r := two_proportion_ztest Sample.norm_cdf Sample.fmt df_sample
             (Fin (5 / 100)) in
  TestResult.significant r = true
  /\ fle (Fin (5 / 100)) (TestResult.p_value r) = true.
Proof.
  apply (proj1 (proj2 (proj2
           (significance_from_unrounded_p Sample.norm_cdf Sample.ttest_ind
              Sample.fmt df_sample TimeSpent (Fin (5 / 100))))));
    rewrite sample_p_value.
  - cbn [flt]. apply Rltb_true. lra.
  - rewrite round_sample_p_value. cbn [fle]. apply Rleb_true. lra.
Defined.

(** * Further properties of the code *)

(** ** Negation and rounding *)

Lemma fadd_comm (x y : float) : (x + y)%fl = (y + x)%fl.
Proof.
  destruct x as [a| | |], y as [b| | |]; try reflexivity.
  cbn [fadd]. f_equal. lra.
Qed.

Lemma fneg_fadd (x y : float) : fneg (x + y)%fl = (fneg x + fneg y)%fl.
Proof.
  destruct x as [a| | |], y as [b| | |]; try reflexivity.
  cbn [fadd fneg]. f_equal. lra.
Qed.

Lemma fneg_involutive (x : float) : fneg (fneg x) = x.
Proof. destruct x as [a| | |]; try reflexivity. cbn. f_equal. lra. Qed.

Lemma fsub_antisym (x y : float) : (x - y)%fl = fneg (y - x)%fl.
Proof.
  unfold fsub. rewrite fneg_fadd, fneg_involutive. apply fadd_comm.
Qed.

Lemma fabs_fneg (x : float) : fabs (fneg x) = fabs x.
Proof.
  destruct x as [a| | |]; try reflexivity. cbn. f_equal. apply Rabs_Ropp.
Qed.

Lemma fabs_fsub_comm (x y : float) : fabs (x - y)%fl = fabs (y - x)%fl.
Proof. rewrite (fsub_antisym x y). apply fabs_fneg. Qed.

(** Rounding half to even is odd: [rint (- r) = - rint r]. *)
Lemma rint_opp (r : R) : rint (- r) = (- rint r)%Z.
Proof.
  pose proof (Zfloor_bound r) as [Hlo Hhi].
  set (f := Zfloor r) in *.
  destruct (Req_dec_T r (IZR f)) as [E | NE].
  - assert (H1 : rint r = f) by (apply rint_eq; lra).
    assert (H2 : rint (- r) = (- f)%Z) by (apply rint_eq; rewrite opp_IZR; lra).
    now rewrite H1, H2.
  - assert (Ef : Zfloor (- r) = (- f - 1)%Z).
    { apply Zfloor_eq. rewrite minus_IZR, opp_IZR. lra. }
    unfold rint. fold f. rewrite Ef, minus_IZR, opp_IZR.
    unfold Rltb.
    destruct (Rlt_dec (r - IZR f) (1 / 2)) as [L | L].
    + destruct (Rlt_dec (- r - (- IZR f - 1)) (1 / 2)); [lra|].
      destruct (Rlt_dec (1 / 2) (- r - (- IZR f - 1))); [lia | lra].
    + destruct (Rlt_dec (1 / 2) (r - IZR f)) as [G | G].
      * destruct (Rlt_dec (- r - (- IZR f - 1)) (1 / 2)); [lia | lra].
      * destruct (Rlt_dec (- r - (- IZR f - 1)) (1 / 2)); [lra|].
        destruct (Rlt_dec (1 / 2) (- r - (- IZR f - 1))); [lra|].
        replace (- f - 1)%Z with (- (f + 1))%Z by lia.
        rewrite Z.even_opp, Z.even_add. cbn [Z.even].
        destruct (Z.even f); cbn; lia.
Qed.

Lemma round_fneg (x : float) (n : nat) : round (fneg x) n = fneg (round x n).
Proof.
  destruct x as [a| | |]; try reflexivity.
  cbn [fneg round]. f_equal.
  replace (- a * 10 ^ n) with (- (a * 10 ^ n)) by lra.
  rewrite rint_opp, opp_IZR. pose proof (pow10_pos n). field. lra.
Qed.

Lemma round_integer (k : Z) (n : nat) : round (Fin (IZR k)) n = Fin (IZR k).
Proof.
  cbn [round]. pose proof (pow10_pos n) as Hp.
  rewrite (pow_IZR 10 n) in *. rewrite <- mult_IZR.
  rewrite (rint_eq _ (k * 10 ^ Z.of_nat n)%Z) by lra.
  rewrite mult_IZR. f_equal. field. lra.
Qed.

Lemma rint_error (r : R) : - (1 / 2) <= IZR (rint r) - r <= 1 / 2.
Proof.
  pose proof (Zfloor_bound r) as [Hlo Hhi].
  unfold rint, Rltb.
  destruct (Rlt_dec (r - IZR (Zfloor r)) (1 / 2)); [lra|].
  destruct (Rlt_dec (1 / 2) (r - IZR (Zfloor r))); [rewrite plus_IZR; lra|].
  destruct (Z.even (Zfloor r)); [lra | rewrite plus_IZR; lra].
Qed.

Lemma round_error (x : float) (n : nat) (y : R) :
  round x n = Fin y ->
  exists r, x = Fin r /\ - (1 / 2) / 10 ^ n <= y - r <= (1 / 2) / 10 ^ n.
Proof.
  destruct x as [r| | |]; try discriminate.
  cbn [round]. intros H; injection H as <-. exists r. split; [reflexivity|].
  pose proof (pow10_pos n) as Hp. pose proof (rint_error (r * 10 ^ n)) as He.
  assert (Hi : 0 < / 10 ^ n) by now apply Rinv_0_lt_compat.
  assert (E : IZR (rint (r * 10 ^ n)) / 10 ^ n - r
              = (IZR (rint (r * 10 ^ n)) - r * 10 ^ n) * / 10 ^ n)
    by (field; lra).
  rewrite E. unfold Rdiv. split; nra.
Qed.

Lemma round_pos (x : float) (n : nat) :
  fgt (round x n) (Fin 0) = true -> fgt x (Fin 0) = true.
Proof.
  unfold fgt. destruct x as [r| | |]; cbn [round flt]; try tauto.
  intros H. apply Rltb_lt in H. apply Rltb_true.
  destruct (Rlt_dec 0 r) as [L | L]; [exact L | exfalso].
  assert (Hle : fle (Fin r) (Fin 0) = true) by (apply Rleb_true; lra).
  apply (round_mono _ _ n) in Hle. rewrite (round_integer 0 n) in Hle.
  cbn [round fle] in Hle. apply Rleb_le in Hle. lra.
Qed.

(** ** The partitions of the exchanged dataset *)

Lemma group_is_swap_control (r : Row.t) :
  group_is "control" (swap_row r) = group_is "variant" r.
Proof.
  unfold group_is, swap_row, swap_label; cbn [Row.group].
  destruct (String.eqb (Row.group r) "control") eqn:Ec.
  - apply String.eqb_eq in Ec. rewrite Ec. reflexivity.
  - destruct (String.eqb (Row.group r) "variant") eqn:Ev; [reflexivity|].
    exact Ec.
Qed.

Lemma group_is_swap_variant (r : Row.t) :
  group_is "variant" (swap_row r) = group_is "control" r.
Proof.
  unfold group_is, swap_row, swap_label; cbn [Row.group].
  destruct (String.eqb (Row.group r) "control") eqn:Ec; [reflexivity|].
  destruct (String.eqb (Row.group r) "variant") eqn:Ev; [reflexivity|].
  exact Ev.
Qed.

Lemma select_swap_control (df : DataFrame) :
  select "control" (swap_groups df) = swap_groups (select "variant" df).
Proof.
  unfold select, swap_groups.
  induction df as [|r df IH]; [reflexivity|].
  cbn [map filter]. rewrite group_is_swap_control, IH.
  now destruct (group_is "variant" r).
Qed.

Lemma select_swap_variant (df : DataFrame) :
  select "variant" (swap_groups df) = swap_groups (select "control" df).
Proof.
  unfold select, swap_groups.
  induction df as [|r df IH]; [reflexivity|].
  cbn [map filter]. rewrite group_is_swap_variant, IH.
  now destruct (group_is "control" r).
Qed.

Lemma length_swap (df : DataFrame) :
  List.length (swap_groups df) = List.length df.
Proof. apply length_map. Qed.

Lemma conversions_swap (df : DataFrame) :
  conversions (swap_groups df) = conversions df.
Proof.
  unfold conversions, swap_groups.
  induction df as [|r df IH]; [reflexivity|].
  cbn [map filter swap_row Row.converted].
  destruct (Row.converted r); cbn [List.length]; now rewrite IH.
Qed.

Lemma conversion_mean_swap (df : DataFrame) :
  conversion_mean (swap_groups df) = conversion_mean df.
Proof.
  destruct df as [|r df]; [reflexivity|].
  unfold conversion_mean.
  change (swap_groups (r :: df)) with (swap_row r :: swap_groups df) at 1.
  cbv iota. now rewrite conversions_swap, length_swap.
Qed.

Lemma column_swap (m : Metric) (df : DataFrame) :
  column m (swap_groups df) = column m df.
Proof.
  unfold column, swap_groups. destruct m; rewrite map_map; reflexivity.
Qed.

(** ** The z-test on the exchanged dataset *)

Lemma fdiv_fneg_l (x y : float) :
  fgt y (Fin 0) = true -> (fneg x / y)%fl = fneg (x / y)%fl.
Proof.
  unfold fgt.
  destruct y as [s| | |]; cbn [flt]; try discriminate; intros H.
  - apply Rltb_lt in H.
    destruct x as [a| | |]; cbn [fneg]; try reflexivity.
    + rewrite !fdiv_fin by lra. cbn [fneg]. f_equal. field. lra.
    + cbn [fdiv]. now rewrite Rltb_false by lra.
    + cbn [fdiv]. now rewrite Rltb_false by lra.
  - destruct x as [a| | |]; cbn [fneg fdiv]; try reflexivity.
    f_equal. lra.
Qed.

Lemma proportions_ztest_swap norm_cdf (a b n m : nat) :
  proportions_ztest norm_cdf (b, a) (m, n)
  = (fneg (fst (proportions_ztest norm_cdf (a, b) (n, m))),
     snd (proportions_ztest norm_cdf (a, b) (n, m))).
Proof.
  unfold proportions_ztest. cbn [fst snd].
  rewrite (Nat.add_comm b a), (Nat.add_comm m n).
  rewrite (fadd_comm (Fin 1 / of_nat m) (Fin 1 / of_nat n)).
  set (se := fsqrt _).
  rewrite (fsub_antisym (of_nat b / of_nat m) (of_nat a / of_nat n)).
  destruct (fgt se (Fin 0)) eqn:E.
  - rewrite fdiv_fneg_l by exact E. now rewrite fabs_fneg.
  - cbn [fneg fabs]. rewrite Ropp_0. reflexivity.
Qed.

(** X1: exchanging the labels control and variant in the dataset negates the
    stored z statistic of the two-proportion test and leaves the stored
    p-value and the significance flag unchanged, for every dataset (empty
    partitions, nan and infinite values included). *)
Theorem ztest_swap_groups norm_cdf fmt (df : DataFrame) (alpha : float) :
  let r := two_proportion_ztest norm_cdf fmt df alpha in
  let r' := two_proportion_ztest norm_cdf fmt (swap_groups df) alpha in
  TestResult.statistic r' = fneg (TestResult.statistic r)
  /\ TestResult.p_value r' = TestResult.p_value r
  /\ TestResult.significant r' = TestResult.significant r.
Proof.
  intros r r'. unfold r, r', two_proportion_ztest.
  rewrite select_swap_control, select_swap_variant.
  rewrite !conversions_swap, !length_swap.
  rewrite (proportions_ztest_swap norm_cdf (conversions (select "variant" df))
             (conversions (select "control" df))).
  destruct (proportions_ztest norm_cdf _ _) as [z p].
  cbn. rewrite round_fneg. repeat split.
Qed.

(** ** The intervals on the exchanged dataset *)

Lemma reflected_bounds (d w : float) (n : nat) :
  round (fneg d - w)%fl n = fneg (round (d + w)%fl n)
  /\ round (fneg d + w)%fl n = fneg (round (d - w)%fl n).
Proof.
  split; rewrite <- round_fneg; f_equal.
  - unfold fsub. now rewrite fneg_fadd.
  - unfold fsub. now rewrite fneg_fadd, fneg_involutive.
Qed.

Lemma ci_difference_proportions_swap norm_ppf (df : DataFrame)
  (confidence : float) :
  ci_difference_proportions norm_ppf (swap_groups df) confidence
  = result_map reflect (ci_difference_proportions norm_ppf df confidence).
Proof.
  unfold ci_difference_proportions.
  rewrite select_swap_control, select_swap_variant.
  rewrite !conversion_mean_swap, !length_swap.
  set (pc := conversion_mean (select "control" df)).
  set (pv := conversion_mean (select "variant" df)).
  destruct (List.length (select "control" df)) as [|nc];
    destruct (List.length (select "variant" df)) as [|nv];
    cbn [div_len bind result_map]; try reflexivity.
  set (a := (pc * (Fin 1 - pc) / of_nat (S nc))%fl).
  set (b := (pv * (Fin 1 - pv) / of_nat (S nv))%fl).
  unfold reflect; cbn [ConfidenceInterval.metric ConfidenceInterval.lower
    ConfidenceInterval.upper ConfidenceInterval.point_estimate
    ConfidenceInterval.confidence_level].
  rewrite (fadd_comm b a), (fsub_antisym pc pv).
  destruct (reflected_bounds (pv - pc)%fl
              (norm_ppf (upper_tail confidence) * fsqrt (a + b))%fl 6)
    as [-> ->].
  now rewrite round_fneg.
Qed.

Lemma ci_difference_means_swap t_ppf (df : DataFrame) (metric : Metric)
  (confidence : float) :
  ci_difference_means t_ppf (swap_groups df) metric confidence
  = result_map reflect (ci_difference_means t_ppf df metric confidence).
Proof.
  unfold ci_difference_means.
  rewrite select_swap_control, select_swap_variant, !column_swap.
  set (cv := dropna (column metric (select "control" df))).
  set (vv := dropna (column metric (select "variant" df))).
  destruct (List.length cv) as [|nc] eqn:Ec;
    destruct (List.length vv) as [|nv] eqn:Ev;
    cbn [div_len bind result_map]; try reflexivity.
  set (a := (var cv / of_nat (S nc))%fl).
  set (b := (var vv / of_nat (S nv))%fl).
  unfold reflect; cbn [ConfidenceInterval.metric ConfidenceInterval.lower
    ConfidenceInterval.upper ConfidenceInterval.point_estimate
    ConfidenceInterval.confidence_level].
  rewrite (fadd_comm b a).
  rewrite (fadd_comm (fsqr b / of_int (Z.of_nat (S nv) - 1))%fl
             (fsqr a / of_int (Z.of_nat (S nc) - 1))%fl).
  rewrite (fsub_antisym (mean cv) (mean vv)).
  set (t := t_ppf _ _).
  destruct (reflected_bounds (mean vv - mean cv)%fl (t * fsqrt (a + b))%fl 4)
    as [-> ->].
  now rewrite round_fneg.
Qed.

(** X2: on the dataset with the labels control and variant exchanged,
    compute_all_cis raises the same exception, or returns for each of the
    three metrics the mirrored interval: lower = - upper, upper = - lower,
    point_estimate negated, metric name and confidence level unchanged.  The
    Welch degrees of freedom handed to the t quantile are the same. *)
Theorem intervals_swap_groups norm_ppf t_ppf (df : DataFrame)
  (confidence : float) :
  compute_all_cis norm_ppf t_ppf (swap_groups df) confidence
  = result_map reflect_all (compute_all_cis norm_ppf t_ppf df confidence).
Proof.
  unfold compute_all_cis.
  rewrite ci_difference_proportions_swap, !ci_difference_means_swap.
  destruct (ci_difference_proportions norm_ppf df confidence) as [c|];
    [|reflexivity].
  destruct (ci_difference_means t_ppf df TimeSpent confidence) as [t|];
    [|reflexivity].
  destruct (ci_difference_means t_ppf df Clicks confidence) as [k|];
    reflexivity.
Qed.

(** ** The power analysis on the exchanged dataset *)

Lemma effect_size_proportions_comm (p1 p2 : float) :
  effect_size_proportions p1 p2 = effect_size_proportions p2 p1.
Proof. unfold effect_size_proportions. apply fabs_fsub_comm. Qed.

Lemma cohens_d_comm (m1 m2 s1 s2 : float) :
  cohens_d m1 m2 s1 s2 = cohens_d m2 m1 s2 s1.
Proof.
  unfold cohens_d.
  now rewrite (fadd_comm (fsqr s1) (fsqr s2)), (fabs_fsub_comm m2 m1).
Qed.

(** X3: the required sample sizes do not depend on which group is called
    control: power_analysis_conversion and power_analysis_ttest give the same
    result (or the same exception) with the two groups' arguments exchanged,
    and run_power_analysis gives the same three per-metric results on the
    dataset with the labels exchanged. *)
Theorem power_analysis_swap_groups norm_ppf (df : DataFrame) (alpha : float) :
  result_map power_results (run_power_analysis norm_ppf (swap_groups df) alpha)
  = result_map power_results (run_power_analysis norm_ppf df alpha)
  /\ (forall p1 p2 a b,
        power_analysis_conversion norm_ppf p1 p2 a b
        = power_analysis_conversion norm_ppf p2 p1 a b)
  /\ (forall m1 m2 s1 s2 metric a b,
        power_analysis_ttest norm_ppf m1 m2 s1 s2 metric a b
        = power_analysis_ttest norm_ppf m2 m1 s2 s1 metric a b).
Proof.
  assert (Hc : forall p1 p2 a b,
             power_analysis_conversion norm_ppf p1 p2 a b
             = power_analysis_conversion norm_ppf p2 p1 a b).
  { intros. unfold power_analysis_conversion.
    now rewrite (effect_size_proportions_comm p1 p2). }
  assert (Ht : forall m1 m2 s1 s2 metric a b,
             power_analysis_ttest norm_ppf m1 m2 s1 s2 metric a b
             = power_analysis_ttest norm_ppf m2 m1 s2 s1 metric a b).
  { intros. unfold power_analysis_ttest.
    now rewrite (cohens_d_comm m1 m2 s1 s2). }
  split; [|split; assumption].
  unfold run_power_analysis.
  rewrite select_swap_control, select_swap_variant.
  rewrite !conversion_mean_swap, !column_swap.
  rewrite (Hc (conversion_mean (select "variant" df))).
  destruct (power_analysis_conversion _ _ _ _ _) as [c|]; [|reflexivity].
  cbn [bind].
  rewrite (Ht (mean (column TimeSpent (select "variant" df)))).
  destruct (power_analysis_ttest _ _ _ _ _ TimeSpent _ _) as [t|];
    [|reflexivity].
  cbn [bind].
  rewrite (Ht (mean (column Clicks (select "variant" df)))).
  destruct (power_analysis_ttest _ _ _ _ _ Clicks _ _) as [k|]; reflexivity.
Qed.

(** ** The sign of the z statistic *)

Lemma pooled_se_zero (a n b m : nat) :
  0 < INR n -> 0 < INR m -> INR a <= INR n -> INR b <= INR m ->
  Spec.SE a n b m = 0 -> INR b / INR m = INR a / INR n.
Proof.
  intros Hn Hm Han Hbm E.
  pose proof (pooled_radicand_nonneg a n b m Hn Hm Han Hbm) as Hrad.
  cbv zeta in Hrad. unfold Spec.SE, Spec.p_pool in E.
  apply sqrt_eq_0 in E; [|exact Hrad].
  assert (Ha : 0 <= INR a) by apply pos_INR.
  assert (Hb : 0 <= INR b) by apply pos_INR.
  assert (H1 : 0 < 1 / INR n) by (apply Rdiv_lt_0_compat; lra).
  assert (H2 : 0 < 1 / INR m) by (apply Rdiv_lt_0_compat; lra).
  set (p := (INR a + INR b) / (INR n + INR m)) in *.
  assert (Hp : p * (1 - p) = 0).
  { apply Rmult_integral in E. destruct E as [E | E]; [exact E | lra]. }
  assert (Hpd : p * (INR n + INR m) = INR a + INR b).
  { unfold p. field. lra. }
  apply Rmult_integral in Hp. destruct Hp as [P0 | P1].
  - rewrite P0 in Hpd.
    assert (INR a = 0) by lra. assert (INR b = 0) by lra.
    replace (INR a) with 0 by lra. replace (INR b) with 0 by lra.
    unfold Rdiv. now rewrite !Rmult_0_l.
  - assert (P : p = 1) by lra. rewrite P in Hpd.
    assert (INR a = INR n) by lra. assert (INR b = INR m) by lra.
    replace (INR a) with (INR n) by lra. replace (INR b) with (INR m) by lra.
    unfold Rdiv. rewrite !Rinv_r by lra. reflexivity.
Qed.

(** X4: with both partitions non-empty the z statistic of the package's
    proportions_ztest is a number whose sign is the sign of
    (variant rate - control rate): positive exactly when the variant converts
    better, zero exactly when the rates are equal, negative exactly when the
    control converts better; the stored (rounded) statistic is >= 0,
    respectively <= 0. *)
Theorem z_statistic_sign norm_cdf fmt (df : DataFrame) (alpha : float) :
  select "control" df <> [] ->
  select "variant" df <> [] ->
  let control := select "control" df in
  let variant := select "variant" df in
  let rate_c := INR (conversions control) / INR (List.length control) in
  let rate_v := INR (conversions variant) / INR (List.length variant) in
  let r := two_proportion_ztest norm_cdf fmt df alpha in
  exists z : R,
    fst (proportions_ztest norm_cdf (conversions variant, conversions control)
           (List.length variant, List.length control)) = Fin z
    /\ (0 < z <-> rate_c < rate_v)
    /\ (z = 0 <-> rate_c = rate_v)
    /\ (z < 0 <-> rate_v < rate_c)
    /\ (rate_c <= rate_v -> fle (Fin 0) (TestResult.statistic r) = true)
    /\ (rate_v <= rate_c -> fle (TestResult.statistic r) (Fin 0) = true).
Proof.
  intros Hc Hv control variant rate_c rate_v r.
  pose proof (INR_length_pos _ Hc) as Pc. pose proof (INR_length_pos _ Hv) as Pv.
  pose proof (conversions_le control) as Lc.
  pose proof (conversions_le variant) as Lv.
  fold control in Pc, Lc. fold variant in Pv, Lv.
  pose proof (proportions_ztest_spec norm_cdf _ _ _ _ Pc Pv Lc Lv) as E.
  exists (Spec.z (conversions control) (List.length control)
            (conversions variant) (List.length variant)).
  assert (S : let z := Spec.z (conversions control) (List.length control)
                         (conversions variant) (List.length variant) in
              (0 < z <-> rate_c < rate_v) /\ (z = 0 <-> rate_c = rate_v)
              /\ (z < 0 <-> rate_v < rate_c)).
  { unfold Spec.z. fold rate_c rate_v.
    destruct (Req_dec_T _ 0) as [E0 | N0].
    - apply pooled_se_zero in E0; try assumption. fold rate_c rate_v in E0.
      cbv zeta. lra.
    - pose proof (sqrt_pos
        (Spec.p_pool (conversions control) (List.length control)
           (conversions variant) (List.length variant)
         * (1 - Spec.p_pool (conversions control) (List.length control)
                  (conversions variant) (List.length variant))
         * (1 / INR (List.length control) + 1 / INR (List.length variant))))
        as Hs.
      change (0 <= Spec.SE (conversions control) (List.length control)
                     (conversions variant) (List.length variant)) in Hs.
      set (se := Spec.SE _ _ _ _) in *.
      assert (Hse : 0 < se) by lra.
      assert (Hi : 0 < / se) by now apply Rinv_0_lt_compat.
      cbv zeta. unfold Rdiv.
      set (D := rate_v - rate_c).
      assert (HD : (0 < D <-> rate_c < rate_v) /\ (D = 0 <-> rate_c = rate_v)
                   /\ (D < 0 <-> rate_v < rate_c)) by (unfold D; lra).
      assert (Hpos : 0 < D -> 0 < D * / se)
        by (intros; now apply Rmult_lt_0_compat).
      assert (Hneg : D < 0 -> D * / se < 0) by (intros; nra).
      assert (Hzero : D = 0 -> D * / se = 0) by (intros ->; lra).
      destruct (Rtotal_order D 0) as [L | [L | L]];
        pose proof (Hpos) ; pose proof Hneg; pose proof Hzero;
        repeat split; intros; lra. }
  cbv zeta in S. destruct S as (S1 & S2 & S3).
  split; [now rewrite E|]. split; [exact S1|]. split; [exact S2|].
  split; [exact S3|].
  unfold r, two_proportion_ztest. fold control variant. rewrite E.
  cbn [TestResult.statistic].
  split; intros H; rewrite <- (round_integer 0 4); apply round_mono;
    cbn [fle]; apply Rleb_true.
  - destruct (Rle_lt_or_eq_dec _ _ H) as [L | L]; [apply S1 in L; lra|].
    apply S2 in L. lra.
  - destruct (Rle_lt_or_eq_dec _ _ H) as [L | L]; [apply S3 in L; lra|].
    symmetry in L. apply S2 in L. lra.
Qed.

(** ** Required sample size and effect size *)

Lemma ceil_int_ok (x : float) (n : Z) :
  ceil_int x = OK n -> exists r, x = Fin r /\ n = Zceil r.
Proof.
  destruct x as [r| | |]; try discriminate.
  rewrite ceil_int_fin. intros H; injection H as <-. now exists r.
Qed.

Lemma fsqr_fin_inv (x : float) (r : R) :
  fsqr x = Fin r -> exists t, x = Fin t /\ r = t * t.
Proof.
  destruct x as [t| | |]; try discriminate.
  cbn. intros H; injection H as <-. now exists t.
Qed.

Lemma fdiv_pos_fin_inv (x : float) (h q : R) :
  0 < h -> (x / Fin h)%fl = Fin q -> exists t, x = Fin t /\ q = t / h.
Proof.
  intros Hh. destruct x as [t| | |]; try discriminate.
  - rewrite fdiv_fin by lra. intros H; injection H as <-. now exists t.
  - cbn [fdiv]. now destruct (Rltb h 0).
  - cbn [fdiv]. now destruct (Rltb h 0).
Qed.

Lemma fmul_two_fin_inv (x : float) (r : R) :
  (Fin 2 * x)%fl = Fin r -> exists t, x = Fin t /\ r = 2 * t.
Proof.
  destruct x as [t| | |]; cbn [fmul]; try discriminate.
  - intros H; injection H as <-. now exists t.
  - unfold inf_times. rewrite Rltb_true by lra. discriminate.
  - unfold inf_times. rewrite Rltb_true by lra. discriminate.
Qed.

Lemma square_quotient_antitone (t h h' : R) :
  0 < h -> h <= h' -> (t / h') * (t / h') <= (t / h) * (t / h).
Proof.
  intros Hh Hle.
  assert (Hi : 0 < / h) by now apply Rinv_0_lt_compat.
  assert (Hi' : 0 < / h') by (apply Rinv_0_lt_compat; lra).
  assert (Hii : / h' <= / h) by (apply Rinv_le_contravar; lra).
  unfold Rdiv.
  replace (t * / h' * (t * / h')) with ((t * t) * (/ h' * / h')) by ring.
  replace (t * / h * (t * / h)) with ((t * t) * (/ h * / h)) by ring.
  apply Rmult_le_compat_l; [nra|]. nra.
Qed.

(** X5: at the same alpha and power, a pair of proportions with a larger
    effect size h never needs a larger sample: whenever
    power_analysis_conversion returns for both pairs, the
    required_sample_size_per_group of the pair with the larger h is at most
    that of the other. *)
Theorem conversion_sample_size_antitone norm_ppf
  (p1 p2 p1' p2' alpha power : float) (r r' : PowerResult.t) (h h' : R) :
  effect_size_proportions p1 p2 = Fin h ->
  effect_size_proportions p1' p2' = Fin h' ->
  h <= h' ->
  power_analysis_conversion norm_ppf p1 p2 alpha power = OK r ->
  power_analysis_conversion norm_ppf p1' p2' alpha power = OK r' ->
  (PowerResult.required_sample_size_per_group r'
   <= PowerResult.required_sample_size_per_group r)%Z.
Proof.
  intros Eh Eh' Hle Hr Hr'.
  unfold power_analysis_conversion, NormalIndPower_solve_power in Hr, Hr'.
  rewrite Eh in Hr. rewrite Eh' in Hr'.
  unfold fgt in Hr, Hr'; cbn [flt] in Hr, Hr'.
  destruct (Rltb 0 h) eqn:Ph; [|discriminate]. apply Rltb_lt in Ph.
  rewrite Rltb_true in Hr' by lra.
  destruct (ceil_int _) as [n|] eqn:En in Hr; [|discriminate].
  destruct (ceil_int _) as [n'|] eqn:En' in Hr'; [|discriminate].
  injection Hr as <-. injection Hr' as <-.
  cbn [PowerResult.required_sample_size_per_group].
  apply ceil_int_ok in En, En'.
  destruct En as (q & Eq & ->), En' as (q' & Eq' & ->).
  apply fsqr_fin_inv in Eq, Eq'.
  destruct Eq as (u & Eu & ->), Eq' as (u' & Eu' & ->).
  apply fdiv_pos_fin_inv in Eu, Eu'; try lra.
  destruct Eu as (s & Es & ->), Eu' as (s' & Es' & ->).
  rewrite Es in Es'. injection Es' as <-.
  apply Zceil_le, square_quotient_antitone; lra.
Qed.

(** X6: at the same alpha and power, means and standard deviations with a
    larger Cohen's d never need a larger sample: whenever
    power_analysis_ttest returns for both, the required_sample_size_per_group
    at the larger d is at most that at the smaller d. *)
Theorem ttest_sample_size_antitone norm_ppf
  (m1 m2 s1 s2 m1' m2' s1' s2' alpha power : float) (metric : Metric)
  (t t' : PowerResult.t) (d d' : R) :
  cohens_d m1 m2 s1 s2 = Fin d ->
  cohens_d m1' m2' s1' s2' = Fin d' ->
  d <= d' ->
  power_analysis_ttest norm_ppf m1 m2 s1 s2 metric alpha power = OK t ->
  power_analysis_ttest norm_ppf m1' m2' s1' s2' metric alpha power = OK t' ->
  (PowerResult.required_sample_size_per_group t'
   <= PowerResult.required_sample_size_per_group t)%Z.
Proof.
  intros Ed Ed' Dle Ht Ht'.
  unfold power_analysis_ttest, TTestIndPower_solve_power in Ht, Ht'.
  rewrite Ed in Ht. rewrite Ed' in Ht'.
  unfold fgt in Ht, Ht'; cbn [flt] in Ht, Ht'.
  destruct (Rltb 0 d) eqn:Pd; [|discriminate]. apply Rltb_lt in Pd.
  rewrite Rltb_true in Ht' by lra.
  destruct (ceil_int _) as [n|] eqn:En in Ht; [|discriminate].
  destruct (ceil_int _) as [n'|] eqn:En' in Ht'; [|discriminate].
  injection Ht as <-. injection Ht' as <-.
  cbn [PowerResult.required_sample_size_per_group].
  apply ceil_int_ok in En, En'.
  destruct En as (q & Eq & ->), En' as (q' & Eq' & ->).
  apply fmul_two_fin_inv in Eq, Eq'.
  destruct Eq as (w & Ew & ->), Eq' as (w' & Ew' & ->).
  apply fsqr_fin_inv in Ew, Ew'.
  destruct Ew as (u & Eu & ->), Ew' as (u' & Eu' & ->).
  apply fdiv_pos_fin_inv in Eu, Eu'; try lra.
  destruct Eu as (s & Es & ->), Eu' as (s' & Es' & ->).
  rewrite Es in Es'. injection Es' as <-.
  apply Zceil_le.
  pose proof (square_quotient_antitone s d d' Pd Dle). lra.
Qed.

(** ** The conversion uplift *)

Lemma conversion_uplift_fin (pc pv : R) :
  conversion_uplift (Fin pc) (Fin pv)
  = Fin (if Rltb 0 pc then (pv - pc) / pc * 100 else 0).
Proof.
  unfold conversion_uplift, fgt; cbn [flt].
  destruct (Rltb 0 pc) eqn:E; [|reflexivity].
  apply Rltb_lt in E. cbn [fsub fneg fadd]. rewrite fdiv_fin by lra.
  cbn [fmul]. reflexivity.
Qed.

(** X7: on numbers conversion_uplift always returns a number u: u is 0 when
    the rates are equal or the control rate is not positive; for a positive
    control rate u = (p_variant - p_control) / p_control * 100, u has the
    sign of (p_variant - p_control), and u >= -100 when p_variant >= 0. *)
Theorem conversion_uplift_sign (pc pv : R) :
  exists u : R,
    conversion_uplift (Fin pc) (Fin pv) = Fin u
    /\ (pc = pv -> u = 0)
    /\ (pc <= 0 -> u = 0)
    /\ (0 < pc -> u = (pv - pc) / pc * 100)
    /\ (0 < pc -> (0 < u <-> pc < pv) /\ (u < 0 <-> pv < pc))
    /\ (0 < pc -> 0 <= pv -> -100 <= u).
Proof.
  rewrite conversion_uplift_fin. eexists; split; [reflexivity|].
  destruct (Rltb 0 pc) eqn:E.
  - apply Rltb_lt in E.
    assert (Hi : 0 < / pc) by now apply Rinv_0_lt_compat.
    assert (Hq : (pv - pc) / pc * 100 = (pv * / pc - 1) * 100)
      by (field; lra).
    assert (Hone : pc * / pc = 1) by (apply Rinv_r; lra).
    split; [intros ->; rewrite Hq; lra|].
    split; [intros; lra|].
    split; [reflexivity|].
    split; [intros _; rewrite Hq; split; split; intros; nra|].
    intros _ Hv. rewrite Hq. nra.
  - assert (pc <= 0).
    { destruct (Rlt_dec 0 pc) as [L|L]; [apply Rltb_lt in L; congruence | lra]. }
    repeat split; intros; lra.
Qed.

Lemma conversion_mean_cons (df : DataFrame) :
  df <> [] ->
  conversion_mean df = (of_nat (conversions df) / of_nat (List.length df))%fl.
Proof. destruct df; [congruence | reflexivity]. Qed.

(** X8: when the control partition has at least one conversion, the uplift
    that two_proportion_ztest writes into its interpretation is the value
    that conversion_uplift gives for the two conversion rates (the value
    run_power_analysis rounds into conversion_uplift_pct), also when the
    variant partition is empty. *)
Theorem uplift_paths_agree (df : DataFrame) :
  (0 < conversions (select "control" df))%nat ->
  ztest_uplift df
  = conversion_uplift (conversion_mean (select "control" df))
      (conversion_mean (select "variant" df)).
Proof.
  intros Hc. unfold ztest_uplift.
  set (control := select "control" df) in *.
  set (variant := select "variant" df) in *.
  assert (Nc : control <> []).
  { intros E. rewrite E in Hc. cbn in Hc. lia. }
  rewrite (conversion_mean_cons control Nc).
  assert (Ev : conversion_mean variant
               = (of_nat (conversions variant) / of_nat (List.length variant))%fl).
  { destruct variant as [|r l] eqn:E; [|reflexivity].
    cbn. unfold fdiv, of_nat. cbn [INR].
    destruct (Req_dec_T 0 0) as [_|N]; [|congruence].
    unfold inf_times. now rewrite !Rltb_false by lra. }
  rewrite Ev.
  pose proof (INR_length_pos control Nc) as Pn.
  assert (Pc : 0 < INR (conversions control)) by (apply lt_0_INR; exact Hc).
  assert (Ec : (of_nat (conversions control) / of_nat (List.length control))%fl
               = Fin (INR (conversions control) / INR (List.length control)))
    by (unfold of_nat; apply fdiv_fin; lra).
  rewrite !Ec.
  unfold conversion_uplift, fgt; cbn [flt].
  rewrite Rltb_true; [reflexivity|].
  apply Rdiv_lt_0_compat; assumption.
Qed.

(** ** What a returned power analysis implies *)

Lemma power_analysis_conversion_no_effect norm_ppf (p1 p2 alpha power : float) :
  fgt (effect_size_proportions p1 p2) (Fin 0) = false ->
  power_analysis_conversion norm_ppf p1 p2 alpha power = Raise OverflowError.
Proof.
  intros H. unfold power_analysis_conversion, NormalIndPower_solve_power.
  now rewrite H.
Qed.

Lemma power_analysis_ttest_no_effect norm_ppf (m1 m2 s1 s2 : float)
  (metric : Metric) (alpha power : float) :
  fgt (cohens_d m1 m2 s1 s2) (Fin 0) = false ->
  power_analysis_ttest norm_ppf m1 m2 s1 s2 metric alpha power
  = Raise OverflowError.
Proof.
  intros H. unfold power_analysis_ttest, TTestIndPower_solve_power.
  now rewrite H.
Qed.

Lemma effect_size_same (p : float) :
  fgt (effect_size_proportions p p) (Fin 0) = false.
Proof. unfold effect_size_proportions. apply fabs_self_difference. Qed.

Lemma effect_size_nan (p : float) :
  fgt (effect_size_proportions NaN p) (Fin 0) = false
  /\ fgt (effect_size_proportions p NaN) (Fin 0) = false.
Proof.
  unfold effect_size_proportions. cbn [fsqrt farcsin fmul].
  split; [now rewrite fsub_nan_r | reflexivity].
Qed.

Lemma cohens_d_same_mean (m s1 s2 : float) :
  fgt (cohens_d m m s1 s2) (Fin 0) = false.
Proof.
  unfold cohens_d.
  destruct (fgt (fsqrt _) (Fin 0)) eqn:E; [|apply Rltb_false; lra].
  set (q := fsqrt _) in *.
  pose proof (fabs_self_difference m) as H.
  destruct (fabs (m - m)%fl) as [a| | |] eqn:Ea.
  - unfold fgt in H; cbn [flt] in H.
    assert (Ha : a <= 0).
    { destruct (Rlt_dec 0 a) as [L|L]; [apply Rltb_lt in L; congruence | lra]. }
    assert (Ha' : 0 <= a).
    { destruct m as [r| | |]; cbn in Ea; try discriminate.
      injection Ea as <-. apply Rabs_pos. }
    assert (a = 0) by lra. subst a.
    unfold fgt in E. destruct q as [s| | |]; cbn [flt] in E; try discriminate.
    + apply Rltb_lt in E. rewrite fdiv_fin by lra.
      unfold fgt; cbn [flt]. apply Rltb_false. unfold Rdiv.
      rewrite Rmult_0_l. lra.
    + cbn [fdiv]. unfold fgt; cbn [flt]. apply Rltb_false. lra.
  - discriminate H.
  - destruct m; discriminate Ea.
  - now destruct q.
Qed.

(** X9: run_power_analysis returns a result only if both partitions are
    non-empty, the two conversion rates differ, and for time_spent and for
    clicks the two group means differ; in each other case it raises. *)
Theorem power_analysis_returns_only_if norm_ppf (df : DataFrame)
  (alpha : float) (out : Power.t) :
  run_power_analysis norm_ppf df alpha = OK out ->
  let control := select "control" df in
  let variant := select "variant" df in
  control <> [] /\ variant <> []
  /\ conversion_mean control <> conversion_mean variant
  /\ forall metric,
       mean (column metric control) <> mean (column metric variant).
Proof.
  intros H control variant. unfold run_power_analysis in H.
  fold control variant in H.
  destruct (power_analysis_conversion _ _ _ _ _) as [c|] eqn:Ec;
    [|discriminate].
  destruct (power_analysis_ttest _ _ _ _ _ TimeSpent _ _) as [t|] eqn:Et;
    [|discriminate].
  destruct (power_analysis_ttest _ _ _ _ _ Clicks _ _) as [k|] eqn:Ek;
    [|discriminate].
  repeat split.
  - intros E. rewrite E in Ec. cbn [conversion_mean] in Ec.
    rewrite power_analysis_conversion_no_effect in Ec
      by apply effect_size_nan.
    discriminate.
  - intros E. rewrite E in Ec. cbn [conversion_mean] in Ec.
    rewrite power_analysis_conversion_no_effect in Ec
      by apply effect_size_nan.
    discriminate.
  - intros E. rewrite E in Ec.
    rewrite power_analysis_conversion_no_effect in Ec
      by apply effect_size_same.
    discriminate.
  - intros [] E.
    + rewrite E in Et.
      rewrite power_analysis_ttest_no_effect in Et
        by apply cohens_d_same_mean.
      discriminate.
    + rewrite E in Ek.
      rewrite power_analysis_ttest_no_effect in Ek
        by apply cohens_d_same_mean.
      discriminate.
Qed.

(** ** Intervals on empty data *)

Lemma ci_difference_proportions_raises norm_ppf (df : DataFrame)
  (confidence : float) :
  (select "control" df <> [] /\ select "variant" df <> []
   /\ exists ci, ci_difference_proportions norm_ppf df confidence = OK ci)
  \/ ((select "control" df = [] \/ select "variant" df = [])
      /\ ci_difference_proportions norm_ppf df confidence
         = Raise ZeroDivisionError).
Proof.
  unfold ci_difference_proportions.
  destruct (select "control" df) as [|r c];
    [right; split; [now left | reflexivity]|].
  destruct (select "variant" df) as [|r' v].
  - right; split; [now right | reflexivity].
  - left. split; [discriminate|]. split; [discriminate|].
    cbn [List.length div_len bind]. eexists; reflexivity.
Qed.

Lemma ci_difference_means_raises t_ppf (df : DataFrame) (metric : Metric)
  (confidence : float) :
  let cv := dropna (column metric (select "control" df)) in
  let vv := dropna (column metric (select "variant" df)) in
  (cv <> [] /\ vv <> []
   /\ exists ci, ci_difference_means t_ppf df metric confidence = OK ci)
  \/ ((cv = [] \/ vv = [])
      /\ ci_difference_means t_ppf df metric confidence
         = Raise ZeroDivisionError).
Proof.
  intros cv vv. unfold ci_difference_means. fold cv vv.
  destruct cv as [|x c]; [right; split; [now left | reflexivity]|].
  destruct vv as [|y v].
  - right; split; [now right | reflexivity].
  - left. split; [discriminate|]. split; [discriminate|].
    cbn [List.length div_len bind]. eexists; reflexivity.
Qed.

Lemma compute_all_cis_cases norm_ppf t_ppf (df : DataFrame)
  (confidence : float) :
  (all_present df
   /\ exists cis, compute_all_cis norm_ppf t_ppf df confidence = OK cis)
  \/ (~ all_present df
      /\ compute_all_cis norm_ppf t_ppf df confidence
         = Raise ZeroDivisionError).
Proof.
  unfold compute_all_cis.
  destruct (ci_difference_proportions_raises norm_ppf df confidence)
    as [(Hc & Hv & c & Ec) | (Hcv & Ec)]; rewrite Ec; cbn [bind].
  2:{ right. split; [|reflexivity].
      intros (Hc & Hv & _). destruct Hcv; contradiction. }
  destruct (ci_difference_means_raises t_ppf df TimeSpent confidence)
    as [(Tc & Tv & t & Et) | (Tcv & Et)]; rewrite Et; cbn [bind].
  2:{ right. split; [|reflexivity].
      intros (_ & _ & H). destruct (H TimeSpent). destruct Tcv; contradiction. }
  destruct (ci_difference_means_raises t_ppf df Clicks confidence)
    as [(Kc & Kv & k & Ek) | (Kcv & Ek)]; rewrite Ek; cbn [bind].
  2:{ right. split; [|reflexivity].
      intros (_ & _ & H). destruct (H Clicks). destruct Kcv; contradiction. }
  left. split; [|eexists; reflexivity].
  split; [exact Hc|]. split; [exact Hv|]. intros []; split; assumption.
Qed.

(** X10: compute_all_cis returns the three intervals exactly when both
    partitions are non-empty and each of them has a non-missing value of
    time_spent and of clicks; in every other case it raises
    ZeroDivisionError (the division of a Python float nan by the length 0);
    no other exception leaves it, whatever the quantile functions return. *)
Theorem intervals_raise_on_empty norm_ppf t_ppf (df : DataFrame)
  (confidence : float) :
  (all_present df ->
   exists cis, compute_all_cis norm_ppf t_ppf df confidence = OK cis)
  /\ (~ all_present df ->
      compute_all_cis norm_ppf t_ppf df confidence = Raise ZeroDivisionError).
Proof.
  destruct (compute_all_cis_cases norm_ppf t_ppf df confidence)
    as [(Hp & H) | (Hn & H)]; split; intros; try assumption; contradiction.
Qed.

(** ** Counts and rates in the metrics summary *)

Lemma group_is_disjoint (r : Row.t) :
  group_is "control" r && group_is "variant" r = false.
Proof.
  unfold group_is.
  destruct (String.eqb (Row.group r) "control") eqn:E; [|reflexivity].
  apply String.eqb_eq in E. rewrite E. reflexivity.
Qed.

Lemma partition_sizes (df : DataFrame) :
  (List.length (select "control" df) + List.length (select "variant" df)
   = List.length (restrict df))%nat.
Proof.
  unfold select, restrict.
  induction df as [|r df IH]; [reflexivity|].
  cbn [filter]. pose proof (group_is_disjoint r) as D.
  destruct (group_is "control" r), (group_is "variant" r);
    cbn [orb List.length] in *; try discriminate; lia.
Qed.

Lemma conversion_mean_range (df : DataFrame) :
  (df = [] /\ conversion_mean df = NaN)
  \/ exists p, conversion_mean df = Fin p /\ 0 <= p <= 1.
Proof.
  destruct df as [|r l]; [now left | right].
  assert (Hp : r :: l <> []) by discriminate.
  pose proof (INR_length_pos (r :: l) Hp) as Pn.
  pose proof (conversions_le (r :: l)) as Le.
  pose proof (pos_INR (conversions (r :: l))) as P0.
  unfold conversion_mean, of_nat. rewrite fdiv_fin by lra.
  eexists; split; [reflexivity|].
  assert (Hi : 0 < / INR (List.length (r :: l))) by now apply Rinv_0_lt_compat.
  unfold Rdiv. split; [nra|].
  apply Rmult_le_reg_r with (INR (List.length (r :: l))); [lra|].
  rewrite Rmult_assoc, Rinv_l by lra. lra.
Qed.

(** X11: in the summary of any dataset the two n_users add up to the number
    of rows labelled control or variant (so to at most the number of rows),
    each total_conversions lies between 0 and the group's n_users, and the
    rounded conversion_rate of a non-empty group lies in [0, 1]. *)
Theorem metrics_summary_counts (df : DataFrame) :
  let s := compute_metrics_summary df in
  let c := Summary.control s in
  let v := Summary.variant s in
  (GroupSummary.n_users c + GroupSummary.n_users v
   = List.length (restrict df))%nat
  /\ (GroupSummary.n_users c + GroupSummary.n_users v <= List.length df)%nat
  /\ (0 <= GroupSummary.total_conversions c
      <= Z.of_nat (GroupSummary.n_users c))%Z
  /\ (0 <= GroupSummary.total_conversions v
      <= Z.of_nat (GroupSummary.n_users v))%Z
  /\ (select "control" df <> [] ->
      fle (Fin 0) (GroupSummary.conversion_rate c) = true
      /\ fle (GroupSummary.conversion_rate c) (Fin 1) = true)
  /\ (select "variant" df <> [] ->
      fle (Fin 0) (GroupSummary.conversion_rate v) = true
      /\ fle (GroupSummary.conversion_rate v) (Fin 1) = true).
Proof.
  intros s c v. unfold c, v, s, compute_metrics_summary, group_summary.
  cbn [Summary.control Summary.variant GroupSummary.n_users
       GroupSummary.total_conversions GroupSummary.conversion_rate].
  assert (R : forall part : DataFrame, part <> [] ->
            fle (Fin 0) (round (conversion_mean part) 4) = true
            /\ fle (round (conversion_mean part) 4) (Fin 1) = true).
  { intros part Hp.
    destruct (conversion_mean_range part) as [[E _] | (p & E & Hr)];
      [contradiction|].
    rewrite E. split.
    - rewrite <- (round_integer 0 4). apply round_mono. cbn [fle].
      apply Rleb_true. lra.
    - rewrite <- (round_integer 1 4). apply round_mono. cbn [fle].
      apply Rleb_true. lra. }
  assert (C : forall part : DataFrame,
            (0 <= Z.of_nat (conversions part) <= Z.of_nat (List.length part))%Z).
  { intros part. pose proof (filter_length_le Row.converted part).
    unfold conversions. lia. }
  split; [apply partition_sizes|].
  split.
  { rewrite partition_sizes. apply filter_length_le. }
  split; [apply C|]. split; [apply C|].
  split; apply R.
Qed.

(** ** The recommendation in closed form *)

(** X12: the recommendation is ROLLOUT exactly when conversion is
    significant and either the uplift exceeds 5 or it exceeds 0 and time_spent
    or clicks is significant too; it is DO NOT ROLLOUT exactly when
    conversion is not significant and exactly one of time_spent and clicks
    is; it is MONITOR otherwise.  So ROLLOUT is never recommended without a
    significant conversion test and an uplift above 0 (a nan uplift is not
    above 0). *)
Theorem recommendation_closed_form fmt (metrics : Summary.t)
  (test_results : Tests.t) (power : Power.t) :
  let out := generate_business_insights fmt metrics test_results power in
  let conv_sig := TestResult.significant (Tests.conversion_rate test_results) in
  let time_sig := TestResult.significant (Tests.time_spent test_results) in
  let clicks_sig := TestResult.significant (Tests.clicks test_results) in
  let uplift := Power.conversion_uplift_pct power in
  (Insights.recommendation out = ROLLOUT <->
   conv_sig = true
   /\ (fgt uplift (Fin 5) = true
       \/ (fgt uplift (Fin 0) = true
           /\ (time_sig = true \/ clicks_sig = true))))
  /\ (Insights.recommendation out = DO_NOT_ROLLOUT <->
      conv_sig = false /\ xorb time_sig clicks_sig = true)
  /\ (Insights.recommendation out = MONITOR <->
      (conv_sig = false /\ time_sig = clicks_sig)
      \/ (conv_sig = true /\ fgt uplift (Fin 5) = false
          /\ (fgt uplift (Fin 0) = false
              \/ (time_sig = false /\ clicks_sig = false)))).
Proof.
  intros out conv_sig time_sig clicks_sig uplift.
  unfold out, generate_business_insights.
  fold conv_sig time_sig clicks_sig uplift.
  destruct conv_sig, time_sig, clicks_sig,
    (fgt uplift (Fin 0)), (fgt uplift (Fin 5));
    cbn [sum_bools fold_left Nat.b2n Nat.add Nat.leb Nat.eqb andb negb xorb
         Insights.recommendation];
    repeat split; intros; try discriminate; try reflexivity;
    intuition (try discriminate; try congruence).
Qed.


(** ** The interval is centred on the point estimate *)

Lemma fadd_fin_inv (x y : float) (s : R) :
  (x + y)%fl = Fin s -> exists a b, x = Fin a /\ y = Fin b /\ s = a + b.
Proof.
  destruct x as [a| | |], y as [b| | |]; try discriminate.
  cbn. intros H; injection H as <-. now exists a, b.
Qed.

Lemma symmetric_up_to_rounding (diff w : float) (n : nat) (L U : R) :
  round (diff - w)%fl n = Fin L -> round (diff + w)%fl n = Fin U ->
  exists P, round diff n = Fin P
            /\ Rabs ((U - P) - (P - L)) <= 2 / 10 ^ n.
Proof.
  intros HL HU.
  apply round_error in HL, HU.
  destruct HL as (l & El & Hl), HU as (u & Eu & Hu).
  apply fadd_fin_inv in Eu. destruct Eu as (d & r & -> & -> & ->).
  unfold fsub in El. cbn in El. injection El as <-.
  eexists. split; [reflexivity|].
  pose proof (rint_error (d * 10 ^ n)) as He.
  pose proof (pow10_pos n) as Hp.
  assert (Hi : 0 < / 10 ^ n) by now apply Rinv_0_lt_compat.
  set (P := IZR (rint (d * 10 ^ n)) / 10 ^ n).
  assert (HP : - (1 / 2) / 10 ^ n <= P - d <= (1 / 2) / 10 ^ n).
  { assert (E : P - d = (IZR (rint (d * 10 ^ n)) - d * 10 ^ n) * / 10 ^ n)
      by (unfold P; field; lra).
    rewrite E. unfold Rdiv. split; nra. }
  apply Rabs_le. unfold Rdiv in *. split; lra.
Qed.

(** X14: an interval returned with numbers as bounds has a number as
    point_estimate, and the point estimate is the midpoint of the interval up
    to the rounding: the distances upper - point_estimate and
    point_estimate - lower differ by at most 2 units of the last stored
    decimal (10^-6 for ci_difference_proportions, 10^-4 for
    ci_difference_means). *)
Theorem interval_symmetric_up_to_rounding norm_ppf t_ppf (df : DataFrame)
  (metric : Metric) (confidence : float) (ci : ConfidenceInterval.t)
  (decimals : nat) (L U : R) :
  (ci_difference_proportions norm_ppf df confidence = OK ci
   /\ decimals = 6%nat)
  \/ (ci_difference_means t_ppf df metric confidence = OK ci
      /\ decimals = 4%nat) ->
  ConfidenceInterval.lower ci = Fin L ->
  ConfidenceInterval.upper ci = Fin U ->
  exists P, ConfidenceInterval.point_estimate ci = Fin P
            /\ Rabs ((U - P) - (P - L)) <= 2 / 10 ^ decimals.
Proof.
  intros [[Hci ->] | [Hci ->]] HL HU.
  - unfold ci_difference_proportions, bind in Hci.
    destruct (div_len _ _) as [a|]; [|discriminate].
    destruct (div_len _ _) as [b|]; [|discriminate].
    injection Hci as <-. cbn [ConfidenceInterval.lower
      ConfidenceInterval.upper ConfidenceInterval.point_estimate] in *.
    eapply symmetric_up_to_rounding; eassumption.
  - unfold ci_difference_means, bind in Hci.
    destruct (div_len _ _) as [a|]; [|discriminate].
    destruct (div_len _ _) as [b|]; [|discriminate].
    injection Hci as <-. cbn [ConfidenceInterval.lower
      ConfidenceInterval.upper ConfidenceInterval.point_estimate] in *.
    eapply symmetric_up_to_rounding; eassumption.
Qed.

(** ** The analysis of a request *)

Lemma fgt_five_zero (x : float) :
  fgt x (Fin 5) = true -> fgt x (Fin 0) = true.
Proof.
  unfold fgt. destruct x as [r| | |]; cbn [flt]; try tauto.
  intros H. apply Rltb_lt in H. apply Rltb_true. lra.
Qed.

Lemma conversion_uplift_pos (pc pv : float) :
  (pc = NaN \/ exists p, pc = Fin p /\ 0 <= p <= 1) ->
  (pv = NaN \/ exists p, pv = Fin p /\ 0 <= p <= 1) ->
  fgt (conversion_uplift pc pv) (Fin 0) = true ->
  exists c v, pc = Fin c /\ pv = Fin v /\ 0 < c < v.
Proof.
  intros [-> | (c & -> & Hc)] Hv H.
  - cbn in H. unfold fgt in H; cbn in H. rewrite Rltb_false in H by lra.
    discriminate.
  - unfold conversion_uplift in H.
    destruct (fgt (Fin c) (Fin 0)) eqn:E.
    2:{ unfold fgt in H; cbn [flt] in H. rewrite Rltb_false in H by lra.
        discriminate. }
    unfold fgt in E; cbn [flt] in E. apply Rltb_lt in E.
    destruct Hv as [-> | (v & -> & Hv)].
    + cbn in H. discriminate.
    + exists c, v. split; [reflexivity|]. split; [reflexivity|].
      cbn [fsub fneg fadd] in H. rewrite fdiv_fin in H by lra.
      cbn [fmul] in H. unfold fgt in H; cbn [flt] in H. apply Rltb_lt in H.
      assert (Hi : 0 < / c) by now apply Rinv_0_lt_compat.
      assert (Hq : (v + - c) / c * 100 = (v * / c - 1) * 100) by (field; lra).
      rewrite Hq in H.
      assert (Hone : c * / c = 1) by (apply Rinv_r; lra).
      split; [lra | nra].
Qed.

Lemma rollout_needs_positive_uplift fmt (metrics : Summary.t)
  (test_results : Tests.t) (power : Power.t) :
  Insights.recommendation
    (generate_business_insights fmt metrics test_results power) = ROLLOUT ->
  TestResult.significant (Tests.conversion_rate test_results) = true
  /\ fgt (Power.conversion_uplift_pct power) (Fin 0) = true.
Proof.
  unfold generate_business_insights.
  pose proof (fgt_five_zero (Power.conversion_uplift_pct power)) as H50.
  destruct (TestResult.significant (Tests.conversion_rate test_results)),
    (TestResult.significant (Tests.time_spent test_results)),
    (TestResult.significant (Tests.clicks test_results)),
    (fgt (Power.conversion_uplift_pct power) (Fin 0)),
    (fgt (Power.conversion_uplift_pct power) (Fin 5));
    cbn [sum_bools fold_left Nat.b2n Nat.add Nat.leb Nat.eqb andb negb
         Insights.recommendation];
    intros H; try discriminate H; split; try reflexivity;
    apply H50; reflexivity.
Qed.

Lemma run_power_analysis_uplift norm_ppf (df : DataFrame) (alpha : float)
  (out : Power.t) :
  run_power_analysis norm_ppf df alpha = OK out ->
  Power.conversion_uplift_pct out
  = round (conversion_uplift (conversion_mean (select "control" df))
             (conversion_mean (select "variant" df))) 2.
Proof.
  unfold run_power_analysis, bind.
  destruct (power_analysis_conversion _ _ _ _ _); [|discriminate].
  destruct (power_analysis_ttest _ _ _ _ _ _ _ _); [|discriminate].
  destruct (power_analysis_ttest _ _ _ _ _ _ _ _); [|discriminate].
  intros H; injection H as <-. reflexivity.
Qed.


Lemma core_analyses_ok norm_cdf norm_ppf t_ppf ttest_ind fmt
  (df : DataFrame) (a : Analysis.t) :
  core_analyses norm_cdf norm_ppf t_ppf ttest_ind fmt df = OK a ->
  exists cis power,
    compute_all_cis norm_ppf t_ppf df (Fin (95 / 100)) = OK cis
    /\ run_power_analysis norm_ppf df (Fin (5 / 100)) = OK power
    /\ a = Analysis.mk (compute_metrics_summary df)
             (run_all_tests norm_cdf ttest_ind fmt df (Fin (5 / 100)))
             cis power
             (generate_business_insights fmt (compute_metrics_summary df)
                (run_all_tests norm_cdf ttest_ind fmt df (Fin (5 / 100)))
                power).
Proof.
  unfold core_analyses, bind.
  destruct (compute_all_cis _ _ _ _) as [cis|]; [|discriminate].
  destruct (run_power_analysis _ _ _) as [power|]; [|discriminate].
  intros H; injection H as <-. now exists cis, power.
Qed.

(** X15: when the core analyses of a request return and the recommendation is
    ROLLOUT, the conversion test is significant and both conversion rates are
    numbers with 0 < control rate < variant rate: a rollout is never
    recommended when the variant converts no better than the control, when
    the control has no conversion, or when a partition is empty. *)
Theorem rollout_only_with_higher_variant_rate norm_cdf norm_ppf t_ppf
  ttest_ind fmt (df : DataFrame) (a : Analysis.t) :
  core_analyses norm_cdf norm_ppf t_ppf ttest_ind fmt df = OK a ->
  Insights.recommendation (Analysis.business_insights a) = ROLLOUT ->
  TestResult.significant
    (Tests.conversion_rate (Analysis.hypothesis_tests a)) = true
  /\ exists pc pv : R,
       conversion_mean (select "control" df) = Fin pc
       /\ conversion_mean (select "variant" df) = Fin pv
       /\ 0 < pc < pv.
Proof.
  intros Ha. apply core_analyses_ok in Ha.
  destruct Ha as (cis & power & _ & Ep & ->).
  cbn [Analysis.business_insights Analysis.hypothesis_tests].
  intros Hr. apply rollout_needs_positive_uplift in Hr.
  destruct Hr as [Hs Hu]. split; [exact Hs|].
  rewrite (run_power_analysis_uplift _ _ _ _ Ep) in Hu.
  apply round_pos in Hu.
  assert (R : forall part : DataFrame,
            conversion_mean part = NaN
            \/ exists p, conversion_mean part = Fin p /\ 0 <= p <= 1).
  { intros part. destruct (conversion_mean_range part) as [[_ E] | E];
      [now left | now right]. }
  destruct (conversion_uplift_pos _ _ (R (select "control" df))
              (R (select "variant" df)) Hu) as (c & v & Ec & Ev & Hcv).
  now exists c, v.
Qed.


(** ** The bar colours of the conversion plot *)

Lemma in_insert_label (g x : string) (index : list string) :
  In x (insert_label g index) <-> x = g \/ In x index.
Proof.
  induction index as [|y rest IH]; cbn [insert_label In].
  - intuition.
  - destruct (String.eqb g y) eqn:E.
    + apply String.eqb_eq in E. subst y. cbn [In]. intuition.
    + destruct (String.ltb g y); cbn [In]; [intuition|].
      rewrite IH. intuition.
Qed.

Lemma in_group_index (df : DataFrame) (g : string) :
  In g (group_index df) <-> exists r, In r df /\ Row.group r = g.
Proof.
  unfold group_index. induction df as [|r df IH]; cbn [map fold_right In].
  - split; [tauto | intros (r & [] & _)].
  - rewrite in_insert_label, IH. split.
    + intros [-> | (r' & Hin & E)]; [exists r; auto | exists r'; auto].
    + intros (r' & [<- | Hin] & E); [left; now symmetry | right; now exists r'].
Qed.

Lemma getitem_COLORS (g : string) :
  (g = "control"%string /\ getitem COLORS g = Found "#4A90D9"%string)
  \/ (g = "variant"%string /\ getitem COLORS g = Found "#E8533A"%string)
  \/ (g <> "control"%string /\ g <> "variant"%string
      /\ getitem COLORS g = KeyError g).
Proof.
  unfold COLORS; cbn [getitem].
  destruct (String.eqb "control" g) eqn:Ec.
  - apply String.eqb_eq in Ec. left. split; [now symmetry | reflexivity].
  - destruct (String.eqb "variant" g) eqn:Ev.
    + apply String.eqb_eq in Ev. right; left.
      split; [now symmetry | reflexivity].
    + right; right. apply String.eqb_neq in Ec, Ev.
      repeat split; congruence.
Qed.

Lemma colors_of_cases (index : list string) :
  (Forall (fun g => g = "control" \/ g = "variant")%string index
   /\ exists cs, colors_of index = Found cs
                 /\ List.length cs = List.length index)
  \/ (exists g, colors_of index = KeyError g /\ In g index
                /\ g <> "control"%string /\ g <> "variant"%string).
Proof.
  induction index as [|g rest IH]; cbn [colors_of].
  - left. split; [constructor | now exists []].
  - destruct (getitem_COLORS g) as [(Eg & ->) | [(Eg & ->) | (N1 & N2 & ->)]].
    + destruct IH as [(F & cs & -> & L) | (k & -> & Hin & Hk)].
      * left. split; [constructor; auto|]. eexists; split; [reflexivity|].
        cbn. now rewrite L.
      * right. exists k. cbn [In]. tauto.
    + destruct IH as [(F & cs & -> & L) | (k & -> & Hin & Hk)].
      * left. split; [constructor; auto|]. eexists; split; [reflexivity|].
        cbn. now rewrite L.
      * right. exists k. cbn [In]. tauto.
    + right. exists g. cbn [In]. tauto.
Qed.

Lemma filter_id_forall {A : Type} (f : A -> bool) (l : list A) :
  filter f l = l -> Forall (fun x => f x = true) l.
Proof.
  induction l as [|x l IH]; [constructor|].
  cbn [filter]. destruct (f x) eqn:E.
  - intros H. injection H as H. constructor; auto.
  - intros H. pose proof (filter_length_le f l) as L.
    rewrite H in L. cbn in L. lia.
Qed.

(** X17: the colour lookup of plot_conversion_rates raises KeyError, with a
    label of the dataset that is neither control nor variant as key, as soon
    as one row carries such a label (the analysis functions ignore these
    rows); when every row is labelled control or variant it returns one
    colour for each label that occurs. *)
Theorem bar_colors_key_error (df : DataFrame) :
  ((exists r, In r df /\ group_is "control" r = false
              /\ group_is "variant" r = false) ->
   exists g, bar_colors df = KeyError g
             /\ g <> "control"%string /\ g <> "variant"%string
             /\ exists r, In r df /\ Row.group r = g)
  /\ (restrict df = df ->
      exists cs, bar_colors df = Found cs
                 /\ List.length cs = List.length (group_index df)).
Proof.
  unfold bar_colors. split.
  - intros (r & Hin & Nc & Nv).
    destruct (colors_of_cases (group_index df))
      as [(F & _) | (g & E & Hg & N1 & N2)].
    + exfalso. rewrite Forall_forall in F.
      assert (Hr : In (Row.group r) (group_index df))
        by (apply in_group_index; now exists r).
      unfold group_is in Nc, Nv. apply String.eqb_neq in Nc, Nv.
      destruct (F _ Hr); contradiction.
    + exists g. repeat split; try assumption. now apply in_group_index.
  - intros H. apply filter_id_forall in H. rewrite Forall_forall in H.
    destruct (colors_of_cases (group_index df))
      as [(_ & cs & E & L) | (g & E & Hg & N1 & N2)].
    + now exists cs.
    + exfalso. apply in_group_index in Hg. destruct Hg as (r & Hin & <-).
      specialize (H r Hin). apply orb_true_iff in H.
      unfold group_is in H. rewrite !String.eqb_eq in H. tauto.
Qed.

(** ** The generated dataset *)

Lemma reassign_fields {Date : Type} (ids : list nat)
  (df : list (Observation.t Date)) :
  List.length ids = List.length df ->
  map (fun p => Observation.fields
                  (Observation.mk (fst p) (Observation.fields (snd p))
                     (Observation.date (snd p))))
      (combine ids df)
  = map Observation.fields df.
Proof.
  revert ids. induction df as [|o df IH]; intros [|i ids] H;
    try discriminate; [reflexivity|].
  cbn. f_equal. apply IH. cbn in H. lia.
Qed.

Lemma reassign_ids {Date : Type} (ids : list nat)
  (df : list (Observation.t Date)) :
  List.length ids = List.length df ->
  map (fun p => Observation.user_id
                  (Observation.mk (fst p) (Observation.fields (snd p))
                     (Observation.date (snd p))))
      (combine ids df)
  = ids.
Proof.
  revert ids. induction df as [|o df IH]; intros [|i ids] H;
    try discriminate; [reflexivity|].
  cbn. f_equal. apply IH. cbn in H. lia.
Qed.

Lemma filter_length_perm {A : Type} (f : A -> bool) (l l' : list A) :
  Permutation l l' -> List.length (filter f l) = List.length (filter f l').
Proof.
  induction 1 as [|x l l' _ IH|x y l|l l' l'' _ IH1 _ IH2]; cbn [filter].
  - reflexivity.
  - destruct (f x); cbn; now rewrite IH.
  - destruct (f x), (f y); reflexivity.
  - now rewrite IH1.
Qed.

Lemma filter_all {A : Type} (f : A -> bool) (l : list A) :
  Forall (fun x => f x = true) l -> filter f l = l.
Proof.
  induction 1 as [|x l Hx _ IH]; [reflexivity|].
  cbn [filter]. now rewrite Hx, IH.
Qed.

Lemma filter_none {A : Type} (f : A -> bool) (l : list A) :
  Forall (fun x => f x = false) l -> filter f l = [].
Proof.
  induction 1 as [|x l Hx _ IH]; [reflexivity|].
  cbn [filter]. now rewrite Hx.
Qed.

(** X18: whatever the random draws, and for every shuffle that permutes the
    rows, generate_ab_test_data(n_users) returns n_users rows whose user ids
    are 1, ..., n_users in row order; n_users // 2 rows are control and the
    other n_users - n_users // 2 are variant (at most one more), no row has
    another label, and every session_count is at least 1. *)
Theorem generated_dataset_shape {Date : Type}
  (cc vc : nat -> bool) (ct vt : nat -> R) (ck vk cs vs : nat -> nat)
  (cd vd : nat -> Date)
  (sample : list (Observation.t Date) -> list (Observation.t Date))
  (n_users : nat) :
  (forall l, Permutation l (sample l)) ->
  let df := generate_ab_test_data cc vc ct vt ck vk cs vs cd vd sample n_users in
  let rows := frame df in
  List.length df = n_users
  /\ map Observation.user_id df = seq 1 n_users
  /\ List.length (select "control" rows) = (n_users / 2)%nat
  /\ List.length (select "variant" rows) = (n_users - n_users / 2)%nat
  /\ (List.length (select "variant" rows) - List.length (select "control" rows)
      <= 1)%nat
  /\ restrict rows = rows
  /\ Forall (fun r => exists k : nat,
                 Row.session_count r = of_nat k /\ (1 <= k)%nat) rows.
Proof.
  intros Hperm df rows.
  set (nc := (n_users / 2)%nat).
  set (nv := (n_users - nc)%nat).
  set (crow := fun i => Row.mk "control" (cc i) (round (Fin (ct i)) 2)
                          (of_nat (ck i)) (of_nat (cs i + 1))).
  set (vrow := fun i => Row.mk "variant" (vc i) (round (Fin (vt i)) 2)
                          (of_nat (vk i)) (of_nat (vs i + 1))).
  set (l0 := map (fun i => Observation.mk (1 + i) (crow i) (cd i)) (seq 0 nc)
             ++ map (fun i => Observation.mk (nc + 1 + i) (vrow i) (vd i))
                  (seq 0 nv)).
  assert (Hl0 : List.length l0 = n_users).
  { unfold l0. rewrite length_app, !length_map, !length_seq.
    unfold nv, nc. pose proof (Nat.div_mod_eq n_users 2). lia. }
  assert (Hs : List.length (sample l0) = n_users).
  { rewrite <- (Permutation_length (Hperm l0)). exact Hl0. }
  assert (Hids : List.length (seq 1 (List.length (sample l0)))
                 = List.length (sample l0)) by apply length_seq.
  assert (Hdf : df = map (fun p => Observation.mk (fst p)
                                  (Observation.fields (snd p))
                                  (Observation.date (snd p)))
                       (combine (seq 1 (List.length (sample l0))) (sample l0)))
    by reflexivity.
  assert (Hrows : rows = map Observation.fields (sample l0)).
  { unfold rows, frame. rewrite Hdf, map_map. apply reassign_fields, Hids. }
  assert (Hp : Permutation (map crow (seq 0 nc) ++ map vrow (seq 0 nv)) rows).
  { rewrite Hrows.
    replace (map crow (seq 0 nc) ++ map vrow (seq 0 nv))
      with (map Observation.fields l0)
      by (unfold l0; rewrite map_app, !map_map; reflexivity).
    apply Permutation_map, Hperm. }
  assert (Fc : forall f (P : Row.t -> Prop),
             (forall i, P (f i)) -> forall l : list nat, Forall P (map f l)).
  { intros f P H l. induction l; cbn; constructor; auto. }
  assert (Hc : List.length (select "control" rows) = nc).
  { unfold select. rewrite <- (filter_length_perm _ _ _ Hp), filter_app.
    rewrite filter_all by (apply Fc; reflexivity).
    rewrite filter_none by (apply Fc; reflexivity).
    now rewrite app_nil_r, length_map, length_seq. }
  assert (Hv : List.length (select "variant" rows) = nv).
  { unfold select. rewrite <- (filter_length_perm _ _ _ Hp), filter_app.
    rewrite filter_none by (apply Fc; reflexivity).
    rewrite filter_all by (apply Fc; reflexivity).
    cbn [app]. now rewrite length_map, length_seq. }
  split.
  { rewrite Hdf, length_map, length_combine, Hids, Hs. lia. }
  split.
  { rewrite Hdf, map_map, (reassign_ids _ _ Hids), Hs. reflexivity. }
  split; [exact Hc|]. split; [exact Hv|].
  split.
  { rewrite Hc, Hv. unfold nv, nc.
    pose proof (Nat.div_mod_eq n_users 2).
    pose proof (Nat.mod_upper_bound n_users 2). lia. }
  split.
  { apply filter_all. apply (Permutation_Forall Hp).
    apply Forall_app. split; apply Fc; reflexivity. }
  apply (Permutation_Forall Hp).
  apply Forall_app. split; apply Fc; intros i; cbn [Row.session_count crow vrow].
  - exists (cs i + 1)%nat. split; [reflexivity | lia].
  - exists (vs i + 1)%nat. split; [reflexivity | lia].
Qed.

(** * The further properties on sample data *)

Lemma uplift_control :
  select "control" df_uplift
  = [row "control" true 2 2 1; row "control" false 4 4 2].
Proof. reflexivity. Qed.

Lemma uplift_variant :
  select "variant" df_uplift
  = [row "variant" true 5 5 1; row "variant" true 7 7 1].
Proof. reflexivity. Qed.

Lemma uplift_rates :
  conversion_mean (select "control" df_uplift) = Fin (1 / 2)
  /\ conversion_mean (select "variant" df_uplift) = Fin 1.
Proof.
  rewrite uplift_control, uplift_variant.
  split; series_eval; f_equal; lra.
Qed.

Lemma uplift_control_stats (m : Metric) :
  mean (column m (select "control" df_uplift)) = Fin 3
  /\ var (column m (select "control" df_uplift)) = Fin 2.
Proof.
  rewrite uplift_control.
  destruct m; split; series_eval; f_equal; lra.
Qed.

Lemma uplift_variant_stats (m : Metric) :
  mean (column m (select "variant" df_uplift)) = Fin 6
  /\ var (column m (select "variant" df_uplift)) = Fin 2.
Proof.
  rewrite uplift_variant.
  destruct m; split; series_eval; f_equal; lra.
Qed.

(** Witness of X4: on [df_sample] the variant converts better (3 of 3
    against 0 of 2) and z is positive. *)
Lemma z_statistic_sign_sample :
  exists z : R,
    fst (proportions_ztest Sample.norm_cdf
           (conversions (select "variant" df_sample),
            conversions (select "control" df_sample))
           (List.length (select "variant" df_sample),
            List.length (select "control" df_sample))) = Fin z
    /\ 0 < z
    /\ fle (Fin 0)
         (TestResult.statistic
            (two_proportion_ztest Sample.norm_cdf Sample.fmt df_sample
               (Fin (5 / 100)))) = true.
Proof.
  assert (Hc : select "control" df_sample <> [])
    by (rewrite sample_control; discriminate).
  assert (Hv : select "variant" df_sample <> [])
    by (rewrite sample_variant; discriminate).
  pose proof (z_statistic_sign Sample.norm_cdf Sample.fmt df_sample
                (Fin (5 / 100)) Hc Hv) as H.
  cbv zeta in H. destruct H as (z & Ez & Hpos & _ & _ & Hle & _).
  assert (Hr : INR (conversions (select "control" df_sample))
               / INR (List.length (select "control" df_sample))
               < INR (conversions (select "variant" df_sample))
                 / INR (List.length (select "variant" df_sample))).
  { rewrite sample_control, sample_variant.
    cbn [conversions filter row Row.converted List.length INR]. lra. }
  exists z. split; [exact Ez|]. split; [now apply Hpos|].
  apply Hle. lra.
Defined.

(** Witness of X5: the proportions (0, 1/4) and (0, 1) with the quantiles of
    [Sample]. *)
Lemma conversion_sample_size_antitone_sample :
  exists r r',
    power_analysis_conversion Sample.norm_ppf (Fin 0) (Fin (1 / 4))
      (Fin (5 / 100)) default_power = OK r
    /\ power_analysis_conversion Sample.norm_ppf (Fin 0) (Fin 1)
         (Fin (5 / 100)) default_power = OK r'
    /\ (PowerResult.required_sample_size_per_group r'
        <= PowerResult.required_sample_size_per_group r)%Z.
Proof.
  assert (B0 : 0 <= 0 <= 1) by lra.
  assert (B1 : 0 <= 1 / 4 <= 1) by lra.
  assert (B2 : 0 <= 1 <= 1) by lra.
  assert (N1 : 0 <> 1 / 4) by lra.
  assert (N2 : 0 <> 1) by lra.
  pose proof (effect_size_proportions_fin 0 (1 / 4) B0 B1) as Eh.
  pose proof (effect_size_proportions_fin 0 1 B0 B2) as Eh'.
  pose proof (effect_size_proportions_pos 0 (1 / 4) B0 B1 N1) as Ph.
  pose proof (effect_size_proportions_pos 0 1 B0 B2 N2) as Ph'.
  destruct (power_analysis_conversion_ok Sample.norm_ppf (Fin 0)
              (Fin (1 / 4)) (Fin (5 / 100)) default_power _ (196 / 100)
              (196 / 100) Eh Ph eq_refl eq_refl) as [Er _].
  destruct (power_analysis_conversion_ok Sample.norm_ppf (Fin 0) (Fin 1)
              (Fin (5 / 100)) default_power _ (196 / 100) (196 / 100)
              Eh' Ph' eq_refl eq_refl) as [Er' _].
  assert (Hle : Rabs (2 * asin (sqrt (1 / 4)) - 2 * asin (sqrt 0))
                <= Rabs (2 * asin (sqrt 1) - 2 * asin (sqrt 0))).
  { pose proof (asin_sqrt_bound (1 / 4) B1) as [A0 A1].
    rewrite sqrt_0, sqrt_1, asin_0, asin_1.
    rewrite !Rabs_pos_eq; pose proof PI_RGT_0; lra. }
  do 2 eexists. split; [exact Er|]. split; [exact Er'|].
  exact (conversion_sample_size_antitone Sample.norm_ppf _ _ _ _ _ _ _ _ _ _
           Eh Eh' Hle Er Er').
Defined.

Lemma cohens_d_unit_deviations (m : R) :
  0 <= m -> cohens_d (Fin 0) (Fin m) (Fin 1) (Fin 1) = Fin m.
Proof.
  intros Hm. rewrite cohens_d_fin.
  replace ((1 * 1 + 1 * 1) / 2) with 1 by lra.
  rewrite sqrt_1, Rltb_true by lra.
  f_equal. rewrite Rabs_pos_eq by lra. lra.
Qed.

(** Witness of X6: the means 0 and 1, then 0 and 2, with standard
    deviations 1. *)
Lemma ttest_sample_size_antitone_sample :
  exists t t',
    power_analysis_ttest Sample.norm_ppf (Fin 0) (Fin 1) (Fin 1) (Fin 1)
      TimeSpent (Fin (5 / 100)) default_power = OK t
    /\ power_analysis_ttest Sample.norm_ppf (Fin 0) (Fin 2) (Fin 1) (Fin 1)
         TimeSpent (Fin (5 / 100)) default_power = OK t'
    /\ (PowerResult.required_sample_size_per_group t'
        <= PowerResult.required_sample_size_per_group t)%Z.
Proof.
  assert (P1 : 0 <= 1) by lra. assert (P2 : 0 <= 2) by lra.
  assert (L1 : 0 < 1) by lra. assert (L2 : 0 < 2) by lra.
  assert (Hle : 1 <= 2) by lra.
  pose proof (cohens_d_unit_deviations 1 P1) as Ed.
  pose proof (cohens_d_unit_deviations 2 P2) as Ed'.
  destruct (power_analysis_ttest_ok Sample.norm_ppf _ _ _ _ TimeSpent
              (Fin (5 / 100)) default_power 1 (196 / 100) (196 / 100)
              Ed L1 eq_refl eq_refl) as [Et _].
  destruct (power_analysis_ttest_ok Sample.norm_ppf _ _ _ _ TimeSpent
              (Fin (5 / 100)) default_power 2 (196 / 100) (196 / 100)
              Ed' L2 eq_refl eq_refl) as [Et' _].
  do 2 eexists. split; [exact Et|]. split; [exact Et'|].
  exact (ttest_sample_size_antitone Sample.norm_ppf _ _ _ _ _ _ _ _ _ _ _
           _ _ _ _ Ed Ed' Hle Et Et').
Defined.

(** Witness of X8: the control partition of [df_uplift] has one
    conversion. *)
Lemma uplift_paths_agree_sample :
  ztest_uplift df_uplift
  = conversion_uplift (conversion_mean (select "control" df_uplift))
      (conversion_mean (select "variant" df_uplift)).
Proof.
  apply uplift_paths_agree.
  rewrite uplift_control. cbn [conversions filter row Row.converted List.length].
  lia.
Defined.

(** Witness of X9: the power analysis returns on [df_sample]. *)
Lemma power_analysis_returns_sample :
  exists out,
    run_power_analysis Sample.norm_ppf df_sample (Fin (5 / 100)) = OK out
    /\ select "control" df_sample <> [] /\ select "variant" df_sample <> []
    /\ conversion_mean (select "control" df_sample)
       <> conversion_mean (select "variant" df_sample)
    /\ forall metric,
         mean (column metric (select "control" df_sample))
         <> mean (column metric (select "variant" df_sample)).
Proof.
  destruct sample_power_runs as [out H].
  exists out. split; [exact H|].
  exact (power_analysis_returns_only_if Sample.norm_ppf df_sample
           (Fin (5 / 100)) out H).
Defined.

(** Witness of X14: the proportion interval and the Welch interval for
    clicks on [df_sample]. *)
Lemma interval_symmetric_sample :
  exists cp ck Lp Up Pp Lk Uk Pk,
    ci_difference_proportions Sample.norm_ppf df_sample (Fin (95 / 100))
    = OK cp
    /\ ci_difference_means Sample.t_ppf df_sample Clicks (Fin (95 / 100))
       = OK ck
    /\ ConfidenceInterval.lower cp = Fin Lp
    /\ ConfidenceInterval.upper cp = Fin Up
    /\ ConfidenceInterval.point_estimate cp = Fin Pp
    /\ Rabs ((Up - Pp) - (Pp - Lp)) <= 2 / 10 ^ 6
    /\ ConfidenceInterval.lower ck = Fin Lk
    /\ ConfidenceInterval.upper ck = Fin Uk
    /\ ConfidenceInterval.point_estimate ck = Fin Pk
    /\ Rabs ((Uk - Pk) - (Pk - Lk)) <= 2 / 10 ^ 4.
Proof.
  destruct sample_proportion_interval as (lo & hi & pt & Hp).
  destruct (sample_welch_interval Clicks) as (lo' & hi' & pt' & Hk).
  destruct (interval_symmetric_up_to_rounding Sample.norm_ppf Sample.t_ppf
              df_sample Clicks (Fin (95 / 100)) _ 6 lo hi
              (or_introl (conj Hp eq_refl)) eq_refl eq_refl)
    as (P & EP & HP).
  destruct (interval_symmetric_up_to_rounding Sample.norm_ppf Sample.t_ppf
              df_sample Clicks (Fin (95 / 100)) _ 4 lo' hi'
              (or_intror (conj Hk eq_refl)) eq_refl eq_refl)
    as (P' & EP' & HP').
  do 2 eexists. exists lo, hi, P, lo', hi', P'.
  split; [exact Hp|]. split; [exact Hk|].
  split; [reflexivity|]. split; [reflexivity|]. split; [exact EP|].
  split; [exact HP|].
  split; [reflexivity|]. split; [reflexivity|]. split; [exact EP'|].
  exact HP'.
Defined.

Lemma sample_ztest_significant (df : DataFrame) :
  TestResult.significant
    (two_proportion_ztest Sample.norm_cdf Sample.fmt df (Fin (5 / 100)))
  = true.
Proof.
  unfold two_proportion_ztest, proportions_ztest.
  cbn [TestResult.significant Sample.norm_cdf fsub fneg fadd fmul flt].
  apply Rltb_true. lra.
Qed.

Lemma rollout_at_large_uplift fmt (metrics : Summary.t)
  (test_results : Tests.t) (power : Power.t) :
  TestResult.significant (Tests.conversion_rate test_results) = true ->
  fgt (Power.conversion_uplift_pct power) (Fin 5) = true ->
  Insights.recommendation
    (generate_business_insights fmt metrics test_results power) = ROLLOUT.
Proof.
  intros Hs H5. pose proof (fgt_five_zero _ H5) as H0.
  unfold generate_business_insights. rewrite Hs, H5, H0.
  destruct (TestResult.significant (Tests.time_spent test_results)),
    (TestResult.significant (Tests.clicks test_results)); reflexivity.
Qed.

Lemma uplift_all_present : all_present df_uplift.
Proof.
  unfold all_present.
  rewrite uplift_control, uplift_variant.
  split; [discriminate|]. split; [discriminate|].
  intros []; split; cbn; discriminate.
Qed.

Lemma uplift_analysis_rollout :
  exists a,
    core_analyses Sample.norm_cdf Sample.norm_ppf Sample.t_ppf
      Sample.ttest_ind Sample.fmt df_uplift = OK a
    /\ Insights.recommendation (Analysis.business_insights a) = ROLLOUT.
Proof.
  destruct (compute_all_cis_cases Sample.norm_ppf Sample.t_ppf df_uplift
              (Fin (95 / 100))) as [(_ & cis & Ec) | (N & _)];
    [|destruct (N uplift_all_present)].
  destruct uplift_rates as [Erc Erv].
  assert (Hp : exists out,
             run_power_analysis Sample.norm_ppf df_uplift (Fin (5 / 100))
             = OK out).
  { apply (power_runs_with df_uplift _ (1 / 2) 1 3 6 2 2 Erc Erv
             uplift_control_stats uplift_variant_stats); lra. }
  destruct Hp as [power Ep].
  eexists. split.
  - unfold core_analyses. rewrite Ec, Ep. cbn [bind]. reflexivity.
  - cbn [Analysis.business_insights].
    apply rollout_at_large_uplift.
    + apply sample_ztest_significant.
    + rewrite (run_power_analysis_uplift _ _ _ _ Ep), Erc, Erv.
      rewrite conversion_uplift_fin, Rltb_true by lra.
      replace ((1 - 1 / 2) / (1 / 2) * 100) with 100 by lra.
      rewrite (round_integer 100 2). unfold fgt; cbn [flt].
      apply Rltb_true. lra.
Qed.

(** Witness of X15: on [df_uplift] (control rate 1/2, variant rate 1) the
    analyses return and recommend the rollout. *)
Lemma rollout_sample :
  exists a pc pv,
    core_analyses Sample.norm_cdf Sample.norm_ppf Sample.t_ppf
      Sample.ttest_ind Sample.fmt df_uplift = OK a
    /\ Insights.recommendation (Analysis.business_insights a) = ROLLOUT
    /\ TestResult.significant
         (Tests.conversion_rate (Analysis.hypothesis_tests a)) = true
    /\ conversion_mean (select "control" df_uplift) = Fin pc
    /\ conversion_mean (select "variant" df_uplift) = Fin pv
    /\ 0 < pc < pv.
Proof.
  destruct uplift_analysis_rollout as (a & Ha & Hr).
  destruct (rollout_only_with_higher_variant_rate Sample.norm_cdf
              Sample.norm_ppf Sample.t_ppf Sample.ttest_ind Sample.fmt
              df_uplift a Ha Hr) as (Hs & pc & pv & Ec & Ev & Hlt).
  exists a, pc, pv.
  split; [exact Ha|]. split; [exact Hr|]. split; [exact Hs|].
  split; [exact Ec|]. split; [exact Ev|]. exact Hlt.
Defined.

(** Witness of X18: five users, the reversal as shuffle. *)
Lemma generated_sample_shape :
  let rows := frame generated_sample in
  List.length generated_sample = 5%nat
  /\ map Observation.user_id generated_sample = [1; 2; 3; 4; 5]%nat
  /\ List.length (select "control" rows) = 2%nat
  /\ List.length (select "variant" rows) = 3%nat
  /\ (List.length (select "variant" rows) - List.length (select "control" rows)
      <= 1)%nat
  /\ restrict rows = rows
  /\ Forall (fun r => exists k : nat,
                 Row.session_count r = of_nat k /\ (1 <= k)%nat) rows.
Proof.
  exact (generated_dataset_shape _ _ _ _ _ _ _ _ _ _ _ 5
           (fun l => Permutation_rev l)).
Defined.
